(** * JIT compiler facade of ART: compiler/jit/jit_compiler.cc

    A shallow embedding of [JitCompiler] (option resolution, construction,
    method compilation) together with the properties of its configuration
    resolver and of its compile entry point. *)

From Stdlib Require Import String Ascii List Bool ZArith Lia.
From Stdlib.Strings Require Import Byte.
Import ListNotations.
Open Scope string_scope.
Open Scope list_scope.

(** ** Strings as [StringPiece] sees them *)

Module StringPiece.

(** [StringPiece::starts_with]: [p] is a prefix of [s]. *)
Fixpoint starts_with (s p : string) {struct p} : bool :=
  match p with
  | EmptyString => true
  | String c p' =>
      match s with
      | EmptyString => false
      | String d s' => Ascii.eqb d c && starts_with s' p'
      end
  end.

(** [StringPiece::substr(pos)]: the view from [pos] to the end; a [pos]
    past the end yields the empty view. *)
Fixpoint substr (s : string) (pos : nat) {struct pos} : string :=
  match pos with
  | O => s
  | S n =>
      match s with
      | EmptyString => EmptyString
      | String _ s' => substr s' n
      end
  end.

(** [StringPiece(const char* )] applied to [.data()]: the characters up to
    the first NUL. *)
Fixpoint from_data (s : string) : string :=
  match s with
  | EmptyString => EmptyString
  | String c s' =>
      if Ascii.eqb c Ascii.zero then EmptyString else String c (from_data s')
  end.

(** A string that holds no NUL, as every C string does. *)
Fixpoint nul_free (s : string) : bool :=
  match s with
  | EmptyString => true
  | String c s' => negb (Ascii.eqb c Ascii.zero) && nul_free s'
  end.

End StringPiece.

Import StringPiece.

(** ** arch/instruction_set.h *)

Inductive InstructionSet : Type :=
| kNone | kArm | kArm64 | kThumb2 | kX86 | kX86_64 | kMips | kMips64.

Definition InstructionSet_eqb (a b : InstructionSet) : bool :=
  match a, b with
  | kNone, kNone | kArm, kArm | kArm64, kArm64 | kThumb2, kThumb2
  | kX86, kX86 | kX86_64, kX86_64 | kMips, kMips | kMips64, kMips64 => true
  | _, _ => false
  end.

(** ** Results and outcomes *)

(** A callee that reports failure through a null pointer (or [false]) and an
    [error_msg] out-parameter. *)
Inductive Result (A : Type) : Type :=
| Ok (a : A)
| Err (error_msg : string).
Arguments Ok {A} a.
Arguments Err {A} error_msg.

(** How a call of the facade ends. *)
Inductive Outcome (A : Type) : Type :=
| Returns (a : A)
| FatalAbort (msg : string)        (* LOG(FATAL) *)
| CheckFailure (what : string)     (* a DCHECK that fails in a debug build *)
| NullDereference.                 (* [->] on an empty unique_ptr *)
Arguments Returns {A} a.
Arguments FatalAbort {A} msg.
Arguments CheckFailure {A} what.
Arguments NullDereference {A}.

Definition bind {A B : Type} (m : Outcome A) (k : A -> Outcome B) : Outcome B :=
  match m with
  | Returns a => k a
  | FatalAbort msg => FatalAbort msg
  | CheckFailure what => CheckFailure what
  | NullDereference => NullDereference
  end.

Declare Scope outcome_scope.
Delimit Scope outcome_scope with outcome.
Notation "x <- m ;; k" := (bind m (fun x => k))
  (at level 61, m at next level, right associativity) : outcome_scope.
Notation "m ;;; k" := (bind m (fun _ => k))
  (at level 61, right associativity) : outcome_scope.
Open Scope outcome_scope.

(** ** The platform: arch/instruction_set_features.h and the build constants

    [InstructionSetFeatures] is an abstract class; the facade only uses its
    three factory/extension entry points.  [kRuntimeISA] and [kIsDebugBuild]
    are fixed when ART is built. *)

Class Platform : Type := {
  InstructionSetFeatures : Type;
  FromVariant : InstructionSet -> string -> Result InstructionSetFeatures;
  AddFeaturesFromString :
    InstructionSetFeatures -> string -> Result InstructionSetFeatures;
  FromCppDefines : InstructionSetFeatures;
  kRuntimeISA : InstructionSet;
  kIsDebugBuild : bool
}.

(** ** driver/compiler_options.h: the fields the facade reads and writes *)

Record CompilerOptions `{Platform} : Type := mkCompilerOptions {
  instruction_set_ : InstructionSet;
  instruction_set_features_ : option InstructionSetFeatures;
  debuggable_ : bool;
  compile_pic_ : bool;
  inline_max_code_units_ : Z;
  generate_debug_info_ : bool;
  compiling_with_core_image_ : bool
}.

Section Setters.
Context `{Platform}.

Definition SetInlineMaxCodeUnits (o : CompilerOptions) (units : Z) :=
  {| instruction_set_ := instruction_set_ o;
     instruction_set_features_ := instruction_set_features_ o;
     debuggable_ := debuggable_ o;
     compile_pic_ := compile_pic_ o;
     inline_max_code_units_ := units;
     generate_debug_info_ := generate_debug_info_ o;
     compiling_with_core_image_ := compiling_with_core_image_ o |}.

Definition SetNonPic (o : CompilerOptions) :=
  {| instruction_set_ := instruction_set_ o;
     instruction_set_features_ := instruction_set_features_ o;
     debuggable_ := debuggable_ o;
     compile_pic_ := false;
     inline_max_code_units_ := inline_max_code_units_ o;
     generate_debug_info_ := generate_debug_info_ o;
     compiling_with_core_image_ := compiling_with_core_image_ o |}.

Definition SetDebuggable (o : CompilerOptions) (value : bool) :=
  {| instruction_set_ := instruction_set_ o;
     instruction_set_features_ := instruction_set_features_ o;
     debuggable_ := value;
     compile_pic_ := compile_pic_ o;
     inline_max_code_units_ := inline_max_code_units_ o;
     generate_debug_info_ := generate_debug_info_ o;
     compiling_with_core_image_ := compiling_with_core_image_ o |}.

Definition GetDebuggable (o : CompilerOptions) : bool := debuggable_ o.
Definition GetInstructionSet (o : CompilerOptions) := instruction_set_ o.
Definition GetGenerateDebugInfo (o : CompilerOptions) : bool :=
  generate_debug_info_ o.

(** The two direct member writes at the end of option resolution. *)
Definition set_features_and_core_image (o : CompilerOptions)
    (features : option InstructionSetFeatures) (core_image : bool) :=
  {| instruction_set_ := instruction_set_ o;
     instruction_set_features_ := features;
     debuggable_ := debuggable_ o;
     compile_pic_ := compile_pic_ o;
     inline_max_code_units_ := inline_max_code_units_ o;
     generate_debug_info_ := generate_debug_info_ o;
     compiling_with_core_image_ := core_image |}.
End Setters.

(** ** The host runtime, as [Runtime::Current()] answers at the time of a call *)

Record Runtime : Type := mkRuntime {
  GetCompilerOptions : list string;
  IsJavaDebuggable : bool;
  GetImageLocation : string
}.

(** ** jit/jit_logger.h and driver/compiler_driver.h, as far as the facade goes *)

Record JitLogger : Type := mkJitLogger { log_is_open : bool }.

Definition OpenLog (l : JitLogger) : JitLogger := {| log_is_open := true |}.
Definition CloseLog (l : JitLogger) : JitLogger := {| log_is_open := false |}.

Inductive CompilerKind : Type := kQuick | kOptimizing.

Record CompilerDriver : Type := mkCompilerDriver {
  compiler_kind_ : CompilerKind;
  thread_count_ : nat;
  swap_fd_ : Z;
  dedupe_enabled_ : bool
}.

Definition SetDedupeEnabled (d : CompilerDriver) (dedupe_enabled : bool) :=
  {| compiler_kind_ := compiler_kind_ d;
     thread_count_ := thread_count_ d;
     swap_fd_ := swap_fd_ d;
     dedupe_enabled_ := dedupe_enabled |}.

(** ** What the facade calls but does not define

    The constructors of [CompilerOptions] and [CompilerDriver],
    [CompilerOptions::ParseCompilerOptions] (the structured parser),
    [CompilerDriver::IsCoreImageFilename] and the inline-budget constant. *)

Class Collaborators `{Platform} : Type := {
  kDefaultInlineMaxCodeUnits : Z;
  new_CompilerOptions : CompilerOptions;
  CompilerOptions_ParseCompilerOptions :
    CompilerOptions -> list string -> bool -> Result CompilerOptions;
  IsCoreImageFilename : string -> bool;
  new_CompilerDriver :
    CompilerOptions -> CompilerKind -> nat -> Z -> CompilerDriver
}.

(** ** The facade object *)

Record JitCompiler `{Platform} : Type := mkJitCompiler {
  compiler_options_ : CompilerOptions;
  compiler_driver_ : option CompilerDriver;
  jit_logger_ : option JitLogger
}.

(** ** JitCompiler::ParseCompilerOptions *)

Section ParseCompilerOptions.
Context `{FL : Platform} `{CO : !Collaborators}.

Definition variant_prefix : string := "--instruction-set-variant=".
Definition features_prefix : string := "--instruction-set-features=".

(** [LOG(WARNING) << "Error parsing " << option << " message=" << error_msg]. *)
Definition parse_warning (option error_msg : string) : string :=
  ("Error parsing " ++ option ++ " message=" ++ error_msg)%string.

(** [DCHECK_EQ]: compiled out unless [kIsDebugBuild]. *)
Definition DCHECK_EQ (a b : InstructionSet) : Outcome unit :=
  if kIsDebugBuild && negb (InstructionSet_eqb a b)
  then CheckFailure "Check failed: instruction_set"
  else Returns tt.

(** The state of the scan: the [unique_ptr] being built and the warnings
    logged so far. *)
Definition ScanState : Type := (option InstructionSetFeatures * list string)%type.

(** One iteration of the loop over the runtime's compiler options. *)
Definition scan_option (instruction_set : InstructionSet)
    (st : ScanState) (option : string) : Outcome ScanState :=
  let '(instruction_set_features, log) := st in
  if starts_with option variant_prefix then
    let str := from_data (substr option (String.length variant_prefix)) in
    match FromVariant instruction_set str with
    | Ok f => Returns (Some f, log)
    | Err error_msg => Returns (None, log ++ [parse_warning option error_msg])
    end
  else if starts_with option features_prefix then
    let str := from_data (substr option (String.length features_prefix)) in
    let '(base, log1) :=
      match instruction_set_features with
      | Some f => (Some f, log)
      | None =>
          match FromVariant instruction_set "default" with
          | Ok f => (Some f, log)
          | Err error_msg => (None, log ++ [parse_warning option error_msg])
          end
      end in
    match base with
    | None => NullDereference
    | Some f =>
        match AddFeaturesFromString f str with
        | Ok f' => Returns (Some f', log1)
        | Err error_msg =>
            Returns (None, log1 ++ [parse_warning option error_msg])
        end
    end
  else Returns st.

Fixpoint scan_options (instruction_set : InstructionSet)
    (options : list string) (st : ScanState) : Outcome ScanState :=
  match options with
  | [] => Returns st
  | option :: rest =>
      st' <- scan_option instruction_set st option ;;
      scan_options instruction_set rest st'
  end.

(** The value moved into [instruction_set_features_] after the scan. *)
Definition features_or_cpp_defines (f : option InstructionSetFeatures)
    : InstructionSetFeatures :=
  match f with
  | None => FromCppDefines
  | Some f => f
  end.

(** The instruction set the facade expects the options to hold. *)
Definition expected_instruction_set : InstructionSet :=
  if InstructionSet_eqb kRuntimeISA kArm then kThumb2 else kRuntimeISA.

Definition ParseCompilerOptions (runtime : Runtime) (jc : JitCompiler)
    : Outcome (JitCompiler * list string) :=
  let o0 := SetInlineMaxCodeUnits (compiler_options_ jc)
                                  kDefaultInlineMaxCodeUnits in
  match CompilerOptions_ParseCompilerOptions
          o0 (GetCompilerOptions runtime) true with
  | Err error_msg => FatalAbort error_msg
  | Ok o1 =>
      let o2 := SetNonPic o1 in
      let o3 := if negb (GetDebuggable o2)
                then SetDebuggable o2 (IsJavaDebuggable runtime)
                else o2 in
      let instruction_set := GetInstructionSet o3 in
      (if InstructionSet_eqb kRuntimeISA kArm
       then DCHECK_EQ instruction_set kThumb2
       else DCHECK_EQ instruction_set kRuntimeISA) ;;;
      st <- scan_options instruction_set (GetCompilerOptions runtime)
                         (None, []) ;;
      let o4 := set_features_and_core_image o3
                  (Some (features_or_cpp_defines (fst st)))
                  (IsCoreImageFilename (GetImageLocation runtime)) in
      let logger := if GetGenerateDebugInfo o4
                    then Some (OpenLog {| log_is_open := false |})
                    else jit_logger_ jc in
      Returns ({| compiler_options_ := o4;
                  compiler_driver_ := compiler_driver_ jc;
                  jit_logger_ := logger |}, snd st)
  end.

End ParseCompilerOptions.

(** ** Construction, reconfiguration and destruction *)

Section Lifecycle.
Context `{FL : Platform} `{CO : !Collaborators}.

(** [JitCompiler::JitCompiler()]. *)
Definition JitCompiler_new (runtime : Runtime)
    : Outcome (JitCompiler * list string) :=
  let jc0 := {| compiler_options_ := new_CompilerOptions;
                compiler_driver_ := None;
                jit_logger_ := None |} in
  r <- ParseCompilerOptions runtime jc0 ;;
  let jc1 := fst r in
  let driver := new_CompilerDriver (compiler_options_ jc1) kOptimizing 1 (-1) in
  Returns ({| compiler_options_ := compiler_options_ jc1;
              compiler_driver_ := Some (SetDedupeEnabled driver false);
              jit_logger_ := jit_logger_ jc1 |}, snd r).

(** [DCHECK(handle != nullptr)] followed by a use of the handle. *)
Definition with_handle {A : Type} (handle : option JitCompiler)
    (k : JitCompiler -> Outcome A) : Outcome A :=
  match handle with
  | None => if kIsDebugBuild
            then CheckFailure "Check failed: jit_compiler != nullptr"
            else NullDereference
  | Some jit_compiler => k jit_compiler
  end.

(** [JitCompiler::Create]: [new] does not return null, so the [CHECK] of
    [jit_load] on its result holds. *)
Definition Create (runtime : Runtime) : Outcome (JitCompiler * list string) :=
  JitCompiler_new runtime.

Definition jit_load (runtime : Runtime) : Outcome (JitCompiler * list string) :=
  Create runtime.

Definition jit_update_options (runtime : Runtime) (handle : option JitCompiler)
    : Outcome (JitCompiler * list string) :=
  with_handle handle (ParseCompilerOptions runtime).

Definition jit_generate_debug_info (handle : option JitCompiler) : Outcome bool :=
  with_handle handle
    (fun jit_compiler => Returns (GetGenerateDebugInfo (compiler_options_ jit_compiler))).

(** [JitCompiler::~JitCompiler()]: the object as it is when released. *)
Definition JitCompiler_delete (jc : JitCompiler) : Outcome JitCompiler :=
  if GetGenerateDebugInfo (compiler_options_ jc) then
    match jit_logger_ jc with
    | None => NullDereference
    | Some l => Returns {| compiler_options_ := compiler_options_ jc;
                           compiler_driver_ := compiler_driver_ jc;
                           jit_logger_ := Some (CloseLog l) |}
    end
  else Returns jc.

(** [jit_unload]: [delete] of a null pointer does nothing, so only the
    [DCHECK] stands in the way of a null handle.  The result is the object
    as the destructor left it. *)
Definition jit_unload (handle : option JitCompiler)
    : Outcome (option JitCompiler) :=
  match handle with
  | None => if kIsDebugBuild
            then CheckFailure "Check failed: handle != nullptr"
            else Returns None
  | Some jit_compiler =>
      released <- JitCompiler_delete jit_compiler ;; Returns (Some released)
  end.

End Lifecycle.

(** ** JitCompiler::CompileMethod *)

Record ArtMethod : Type := mkArtMethod {
  PrettyMethod : string;
  IsProxyMethod : bool;
  DeclaringClassIsResolved : bool
}.

Record Thread : Type := mkThread {
  thread_id : nat;
  IsExceptionPending : bool
}.

(** The runtime's code cache is only passed on, by address. *)
Definition JitCodeCache : Type := nat.

(** base/timing_logger.h: a timing is a clock value with a label; the end of
    a scope is recorded with a null label. *)
Inductive TimingKind : Type := kMonotonic | kThreadCpu.

Record Timing : Type := mkTiming {
  timing_time : nat;
  timing_name : option string
}.

Record TimingLogger : Type := mkTimingLogger {
  logger_name_ : string;
  precise_ : bool;
  verbose_ : bool;
  kind_ : TimingKind;
  timings_ : list Timing
}.

Definition push_timing (l : TimingLogger) (t : Timing) : TimingLogger :=
  {| logger_name_ := logger_name_ l;
     precise_ := precise_ l;
     verbose_ := verbose_ l;
     kind_ := kind_ l;
     timings_ := timings_ l ++ [t] |}.

Definition StartTiming (now : nat) (label : string) (l : TimingLogger) :=
  push_timing l {| timing_time := now; timing_name := Some label |}.

Definition EndTiming (now : nat) (l : TimingLogger) :=
  push_timing l {| timing_time := now; timing_name := None |}.

(** Calls that leave the facade, in the order they are made. *)
Inductive Event : Type :=
| CallJitCompile (self : Thread) (code_cache : JitCodeCache)
    (method : ArtMethod) (baseline osr : bool) (logger : option JitLogger)
| CallTrimMaps
| CallAddTimingLogger (logger : TimingLogger).

(** The code generator behind [compiler_driver_->GetCompiler()] and the
    arena pool of the runtime.  Each reports the thread CPU time it took. *)
Class Backend : Type := {
  BackendState : Type;
  JitCompile :
    BackendState -> Thread -> JitCodeCache -> ArtMethod -> bool -> bool ->
    option JitLogger -> bool * BackendState * nat;
  ArenaPool : Type;
  TrimMaps : ArenaPool -> ArenaPool * nat
}.

(** The part of the process a compile request reads and changes. *)
Record JitWorld `{Backend} : Type := mkJitWorld {
  backend_state : BackendState;
  jit_code_cache : JitCodeCache;
  jit_arena_pool : ArenaPool;
  thread_cpu_time : nat;
  VLOG_IS_ON_jit : bool;
  cumulative_timings : list TimingLogger;
  history : list Event
}.

Section CompileMethod.
Context `{FL : Platform} `{BE : Backend}.

Definition DCHECK (cond : bool) (what : string) : Outcome unit :=
  if kIsDebugBuild && negb cond then CheckFailure what else Returns tt.

(** [Thread::AssertNoPendingException]: not a [DCHECK]; a pending exception
    is fatal in every build. *)
Definition AssertNoPendingException (self : Thread) : Outcome unit :=
  if IsExceptionPending self
  then FatalAbort "No pending exception expected"
  else Returns tt.

Definition CompileMethod (jc : JitCompiler) (w : JitWorld)
    (self : Thread) (method : ArtMethod) (osr : bool)
    : Outcome (bool * JitWorld) :=
  DCHECK (negb (IsProxyMethod method)) "!method->IsProxyMethod()" ;;;
  DCHECK (DeclaringClassIsResolved method)
         "method->GetDeclaringClass()->IsResolved()" ;;;
  let logger := {| logger_name_ := "JIT compiler timing logger";
                   precise_ := true;
                   verbose_ := VLOG_IS_ON_jit w;
                   kind_ := kThreadCpu;
                   timings_ := [] |} in
  AssertNoPendingException self ;;;
  (* Do the compilation. *)
  let logger := StartTiming (thread_cpu_time w) "Compiling" logger in
  let code_cache := jit_code_cache w in
  match compiler_driver_ jc with
  | None => NullDereference
  | Some _ =>
      let '(success, backend', elapsed) :=
        JitCompile (backend_state w) self code_cache method
                   false osr (jit_logger_ jc) in
      let now1 := thread_cpu_time w + elapsed in
      let history1 :=
        history w ++ [CallJitCompile self code_cache method
                                     false osr (jit_logger_ jc)] in
      let logger := EndTiming now1 logger in
      (* Trim maps to reduce memory usage. *)
      let logger := StartTiming now1 "TrimMaps" logger in
      let '(pool', trim_elapsed) := TrimMaps (jit_arena_pool w) in
      let now2 := now1 + trim_elapsed in
      let history2 := history1 ++ [CallTrimMaps] in
      let logger := EndTiming now2 logger in
      Returns (success,
               {| backend_state := backend';
                  jit_code_cache := jit_code_cache w;
                  jit_arena_pool := pool';
                  thread_cpu_time := now2;
                  VLOG_IS_ON_jit := VLOG_IS_ON_jit w;
                  cumulative_timings := cumulative_timings w ++ [logger];
                  history := history2 ++ [CallAddTimingLogger logger] |})
  end.

Definition jit_compile_method (handle : option JitCompiler) (w : JitWorld)
    (method : ArtMethod) (self : Thread) (osr : bool)
    : Outcome (bool * JitWorld) :=
  match handle with
  | None => if kIsDebugBuild
            then CheckFailure "Check failed: jit_compiler != nullptr"
            else NullDereference
  | Some jit_compiler => CompileMethod jit_compiler w self method osr
  end.

End CompileMethod.

(** ** jit_types_loaded *)

(** debug/elf_debug_writer.h: the writer of the debug ELF file for a set of
    classes; the facade only calls it. *)
Class DebugWriter `{Platform} : Type := {
  MirrorClass : Type;
  WriteDebugElfFileForClasses :
    InstructionSet -> option InstructionSetFeatures -> list MirrorClass ->
    list byte
}.

(** The packing function handed to the registrar. *)
Inductive PackFunction : Type := PackElfFileForJIT.

(** A call of [AddNativeDebugInfoForJit], as the registrar receives it. *)
Record DebugInfoEntry `{Platform} : Type := mkDebugInfoEntry {
  entry_thread : Thread;
  entry_code_ptr : option nat;
  entry_elf_file : list byte;
  entry_pack : PackFunction;
  entry_isa : InstructionSet;
  entry_features : option InstructionSetFeatures
}.

Section TypesLoaded.
Context `{FL : Platform} `{DW : !DebugWriter}.

Definition GetInstructionSetFeatures (o : CompilerOptions)
    : option InstructionSetFeatures :=
  instruction_set_features_ o.

(** [types] stands for the array of [count] classes; [current] is
    [Thread::Current()] and [registered] the calls the registrar has received
    so far. *)
Definition jit_types_loaded (current : Thread) (handle : option JitCompiler)
    (types : list MirrorClass) (registered : list DebugInfoEntry)
    : Outcome (list DebugInfoEntry) :=
  with_handle handle (fun jit_compiler =>
    let compiler_options := compiler_options_ jit_compiler in
    if GetGenerateDebugInfo compiler_options then
      let types_array := types in
      let elf_file :=
        WriteDebugElfFileForClasses
          kRuntimeISA (GetInstructionSetFeatures compiler_options)
          types_array in
      (* We never free debug info for types, so no handle is provided. *)
      Returns (registered ++
               [{| entry_thread := current;
                   entry_code_ptr := None;
                   entry_elf_file := elf_file;
                   entry_pack := PackElfFileForJIT;
                   entry_isa := GetInstructionSet compiler_options;
                   entry_features :=
                     GetInstructionSetFeatures compiler_options |}])
    else Returns registered).

End TypesLoaded.

(** ** The structured option parser *)

(** Modelled from the spec: how the generic structured parser
    ([CompilerOptions::ParseCompilerOptions], which is not part of
    jit_compiler.cc) sees one token: not one of its keys, one of its keys
    with a bad value, or one of its keys with the update it makes. *)
Inductive TokenClass `{Platform} : Type :=
| Unrecognized
| Malformed (error_msg : string)
| Recognized (update : CompilerOptions -> CompilerOptions).

(** Modelled from the spec: the generic structured parser, which is not part
    of jit_compiler.cc.  It runs over the tokens; an unrecognized token is
    tolerated or rejected per the ignore flag, a recognized token with a bad
    value fails the parse, and a recognized token updates the options. *)
Fixpoint structured_parse `{Platform} (classify : string -> TokenClass)
    (o : CompilerOptions) (tokens : list string) (ignore_unrecognized : bool)
    : Result CompilerOptions :=
  match tokens with
  | [] => Ok o
  | t :: rest =>
      match classify t with
      | Unrecognized =>
          if ignore_unrecognized
          then structured_parse classify o rest ignore_unrecognized
          else Err ("Unknown argument: " ++ t)%string
      | Malformed error_msg => Err error_msg
      | Recognized update =>
          structured_parse classify (update o) rest ignore_unrecognized
      end
  end.

(** ** The backend's artifact storage *)

(** Modelled from the spec: the storage behind the backend binding, which is
    not part of jit_compiler.cc.  With deduplication enabled, an artifact
    whose bytes are already stored shares the existing entry (and counts one
    more owner); with deduplication disabled every stored artifact gets an
    entry of its own.  Releasing an entry drops one owner and removes the
    entry with its last owner. *)
Module Storage.

Record Entry : Type := mkEntry {
  entry_id : nat;
  entry_code : list nat;
  entry_owners : nat
}.

Record t : Type := mkStorage {
  next_id : nat;
  entries : list Entry
}.

Definition code_eqb (a b : list nat) : bool :=
  if list_eq_dec Nat.eq_dec a b then true else false.

Definition add_owner (id : nat) (e : Entry) : Entry :=
  if Nat.eqb (entry_id e) id
  then {| entry_id := entry_id e; entry_code := entry_code e;
          entry_owners := S (entry_owners e) |}
  else e.

Definition allocate (s : t) (code : list nat) : nat * t :=
  (next_id s,
   {| next_id := S (next_id s);
      entries := entries s ++ [{| entry_id := next_id s;
                                  entry_code := code;
                                  entry_owners := 1 |}] |}).

(** Modelled from the spec: storing an artifact, with or without
    deduplication. *)
Definition store (dedupe_enabled : bool) (s : t) (code : list nat) : nat * t :=
  if dedupe_enabled then
    match find (fun e => code_eqb (entry_code e) code) (entries s) with
    | Some e => (entry_id e,
                 {| next_id := next_id s;
                    entries := map (add_owner (entry_id e)) (entries s) |})
    | None => allocate s code
    end
  else allocate s code.

Fixpoint release_in (id : nat) (es : list Entry) : list Entry :=
  match es with
  | [] => []
  | e :: rest =>
      if Nat.eqb (entry_id e) id then
        match entry_owners e with
        | S (S n) => {| entry_id := entry_id e; entry_code := entry_code e;
                        entry_owners := S n |} :: rest
        | _ => rest
        end
      else e :: release_in id rest
  end.

(** Modelled from the spec: evicting one entry. *)
Definition release (id : nat) (s : t) : t :=
  {| next_id := next_id s; entries := release_in id (entries s) |}.

Definition lookup (id : nat) (s : t) : option (list nat) :=
  option_map entry_code (find (fun e => Nat.eqb (entry_id e) id) (entries s)).

(** Every stored id was handed out before. *)
Definition well_formed (s : t) : Prop :=
  Forall (fun e => entry_id e < next_id s) (entries s).

Definition empty : t := {| next_id := 0; entries := [] |}.

End Storage.

(** ** A sample host *)

(** An arm64 or arm device build with its collaborators, used to run the
    model on concrete inputs. *)
Module SampleHost.

(** Modelled from the spec: a feature set is a baseline variant name with an
    overlay of explicitly toggled capability flags (the classes behind
    [InstructionSetFeatures] are not part of jit_compiler.cc). *)
Record Features : Type := mkFeatures {
  baseline : string;
  overlay : list string
}.

Definition mem (s : string) (l : list string) : bool :=
  existsb (String.eqb s) l.

Definition known_variants : list string :=
  ["default"; "generic"; "cortex-a53"; "cortex-a57"; "kryo"].

Definition known_features : list string :=
  ["a53"; "-a53"; "crc"; "-crc"; "lse"; "-lse"].

Definition sample_FromVariant (isa : InstructionSet) (variant : string)
    : Result Features :=
  if mem variant known_variants
  then Ok {| baseline := variant; overlay := [] |}
  else Err ("Unexpected CPU variant for Arm64: " ++ variant)%string.

Definition sample_AddFeaturesFromString (f : Features) (feature_list : string)
    : Result Features :=
  if mem feature_list known_features
  then Ok {| baseline := baseline f; overlay := overlay f ++ [feature_list] |}
  else Err ("Unknown instruction set feature: '" ++ feature_list ++ "'")%string.

Definition platform (isa : InstructionSet) (debug_build : bool) : Platform :=
  {| InstructionSetFeatures := Features;
     FromVariant := sample_FromVariant;
     AddFeaturesFromString := sample_AddFeaturesFromString;
     FromCppDefines := {| baseline := "cpp-defines"; overlay := [] |};
     kRuntimeISA := isa;
     kIsDebugBuild := debug_build |}.

Section Host.
Variable isa : InstructionSet.
Variable debug_build : bool.
Let P : Platform := platform isa debug_build.

Definition set_debuggable (v : bool) (o : @CompilerOptions P) :=
  @SetDebuggable P o v.

Definition set_pic (o : @CompilerOptions P) : @CompilerOptions P :=
  {| instruction_set_ := instruction_set_ o;
     instruction_set_features_ := instruction_set_features_ o;
     debuggable_ := debuggable_ o;
     compile_pic_ := true;
     inline_max_code_units_ := inline_max_code_units_ o;
     generate_debug_info_ := generate_debug_info_ o;
     compiling_with_core_image_ := compiling_with_core_image_ o |}.

Definition set_generate_debug_info (v : bool) (o : @CompilerOptions P)
    : @CompilerOptions P :=
  {| instruction_set_ := instruction_set_ o;
     instruction_set_features_ := instruction_set_features_ o;
     debuggable_ := debuggable_ o;
     compile_pic_ := compile_pic_ o;
     inline_max_code_units_ := inline_max_code_units_ o;
     generate_debug_info_ := v;
     compiling_with_core_image_ := compiling_with_core_image_ o |}.

(** The grammar of the sample host; a compiler filter outside the known
    ones is a recognized key with a bad value. *)
Definition classify (token : string) : @TokenClass P :=
  if String.eqb token "--debuggable" then Recognized (set_debuggable true)
  else if String.eqb token "--compile-pic" then Recognized set_pic
  else if String.eqb token "--generate-debug-info"
       then Recognized (set_generate_debug_info true)
  else if String.eqb token "--no-generate-debug-info"
       then Recognized (set_generate_debug_info false)
  else if starts_with token "--compiler-filter=" then
    if mem (substr token (String.length "--compiler-filter="))
           ["verify"; "quicken"; "speed"]
    then Recognized (fun o => o)
    else Malformed ("Unknown --compiler-filter value "
                    ++ substr token (String.length "--compiler-filter="))%string
  else Unrecognized.

(** Whether the tokens set the debuggable flag, and to which value. *)
Fixpoint explicit_debuggable (tokens : list string) : option bool :=
  match tokens with
  | [] => None
  | t :: rest =>
      match explicit_debuggable rest with
      | Some v => Some v
      | None =>
          if String.eqb t "--debuggable" then Some true else None
      end
  end.

Definition ends_with (s suffix : string) : bool :=
  Nat.leb (String.length suffix) (String.length s)
  && String.eqb (substr s (String.length s - String.length suffix)) suffix.

Definition collaborators : @Collaborators P :=
  {| kDefaultInlineMaxCodeUnits := (-1)%Z;
     new_CompilerOptions :=
       {| instruction_set_ := @expected_instruction_set P;
          instruction_set_features_ := None;
          debuggable_ := false;
          compile_pic_ := false;
          inline_max_code_units_ := 100%Z;
          generate_debug_info_ := false;
          compiling_with_core_image_ := false |};
     CompilerOptions_ParseCompilerOptions := structured_parse classify;
     IsCoreImageFilename := fun name => ends_with name "core.art";
     new_CompilerDriver := fun _ kind threads fd =>
       {| compiler_kind_ := kind; thread_count_ := threads;
          swap_fd_ := fd; dedupe_enabled_ := true |} |}.

End Host.

Definition runtime_with (tokens : list string) (java_debuggable : bool)
    : Runtime :=
  {| GetCompilerOptions := tokens;
     IsJavaDebuggable := java_debuggable;
     GetImageLocation := "/system/framework/boot.art" |}.

(** A backend that compiles every method but native-looking ones, at a fixed
    cost, and an arena pool that counts its trims. *)
Definition backend : Backend :=
  {| BackendState := nat;
     JitCompile := fun n _ _ method _ _ _ =>
       (negb (starts_with (PrettyMethod method) "native "), S n, 40);
     ArenaPool := nat;
     TrimMaps := fun trims => (S trims, 2) |}.

Definition world : @JitWorld backend :=
  @mkJitWorld backend 0 4096 0 1000 false [] [].

Definition method_foo : ArtMethod :=
  {| PrettyMethod := "int Foo.bar(int)";
     IsProxyMethod := false;
     DeclaringClassIsResolved := true |}.

Definition method_native : ArtMethod :=
  {| PrettyMethod := "native void Foo.baz()";
     IsProxyMethod := false;
     DeclaringClassIsResolved := true |}.

Definition worker : Thread :=
  {| thread_id := 7; IsExceptionPending := false |}.

End SampleHost.

(** * The vocabulary of the properties *)

Definition outcome_map {A B : Type} (f : A -> B) (m : Outcome A) : Outcome B :=
  x <- m ;; Returns (f x).

Definition variant_token (v : string) : string := (variant_prefix ++ v)%string.
Definition features_token (x : string) : string := (features_prefix ++ x)%string.

(** A token the scan looks at. *)
Definition relevant (t : string) : bool :=
  starts_with t variant_prefix || starts_with t features_prefix.

(** A run of the resolver: at creation, or at an update of the options of
    an existing object. *)
Inductive ResolverRun `{Platform} : Type :=
| AtCreation
| AtUpdate (handle : option JitCompiler).

Section Vocabulary.
Context `{FL : Platform} `{CO : !Collaborators}.

(** The baseline a features token is overlaid on. *)
Definition baseline_for (isa : InstructionSet)
    (f : option InstructionSetFeatures)
    : Result InstructionSetFeatures :=
  match f with
  | Some f => Ok f
  | None => FromVariant isa "default"
  end.

(** A token whose own value is rejected in the state [f] of the scan. *)
Definition malformed_token (isa : InstructionSet)
    (f : option InstructionSetFeatures) (t : string) : bool :=
  if starts_with t variant_prefix then
    match FromVariant isa (from_data (substr t (String.length variant_prefix))) with
    | Ok _ => false
    | Err _ => true
    end
  else if starts_with t features_prefix then
    match baseline_for isa f with
    | Ok b =>
        match AddFeaturesFromString
                b (from_data (substr t (String.length features_prefix))) with
        | Ok _ => false
        | Err _ => true
        end
    | Err _ => false
    end
  else false.

(** The options as the structured parser receives them. *)
Definition parser_input (jc : JitCompiler) : CompilerOptions :=
  SetInlineMaxCodeUnits (compiler_options_ jc) kDefaultInlineMaxCodeUnits.

(** The structured parse of a run succeeds with options [o1]. *)
Definition baseline_parse (runtime : Runtime) (jc : JitCompiler)
    : Result CompilerOptions :=
  CompilerOptions_ParseCompilerOptions
    (parser_input jc) (GetCompilerOptions runtime) true.

(** The instruction-set assertion holds of the parsed options (or is
    compiled out). *)
Definition instruction_set_checked (o : CompilerOptions) : Prop :=
  kIsDebugBuild = false \/ instruction_set_ o = expected_instruction_set.

(** The object a run leaves behind, given the parsed options and the
    feature set the scan ended with. *)
Definition resolved (runtime : Runtime) (jc : JitCompiler)
    (o1 : CompilerOptions) (f : option InstructionSetFeatures) : JitCompiler :=
  {| compiler_options_ :=
       {| instruction_set_ := instruction_set_ o1;
          instruction_set_features_ := Some (features_or_cpp_defines f);
          debuggable_ := debuggable_ o1 || IsJavaDebuggable runtime;
          compile_pic_ := false;
          inline_max_code_units_ := inline_max_code_units_ o1;
          generate_debug_info_ := generate_debug_info_ o1;
          compiling_with_core_image_ :=
            IsCoreImageFilename (GetImageLocation runtime) |};
     compiler_driver_ := compiler_driver_ jc;
     jit_logger_ := if generate_debug_info_ o1
                    then Some {| log_is_open := true |}
                    else jit_logger_ jc |}.

(** The feature set a completed run holds. *)
Definition resolved_features (r : JitCompiler * list string)
    : option InstructionSetFeatures :=
  instruction_set_features_ (compiler_options_ (fst r)).

Definition run_resolver (runtime : Runtime) (r : ResolverRun)
    : Outcome (JitCompiler * list string) :=
  match r with
  | AtCreation => jit_load runtime
  | AtUpdate handle => jit_update_options runtime handle
  end.

(** The object the constructor runs the resolver on. *)
Definition fresh_object : JitCompiler :=
  {| compiler_options_ := new_CompilerOptions;
     compiler_driver_ := None;
     jit_logger_ := None |}.

(** The debuggable flag as the claim words it: the explicitly set value
    when there is one, the live state of the host otherwise. *)
Definition debuggable_as_claimed (explicit : option bool) (host : bool) : bool :=
  match explicit with
  | Some v => v
  | None => host
  end.

End Vocabulary.

(** ** Runs on the sample host *)

Module SampleRuns.
Import SampleHost.

Definition arm64 : Platform := platform kArm64 true.
Definition arm64_collaborators : @Collaborators arm64 :=
  collaborators kArm64 true.
Definition sample_backend : Backend := backend.

#[local] Existing Instance arm64.
#[local] Existing Instance arm64_collaborators.
#[local] Existing Instance sample_backend.

Definition cortex_a53 : Features :=
  {| baseline := "cortex-a53"; overlay := [] |}.

Definition cpp_defines : Features :=
  {| baseline := "cpp-defines"; overlay := [] |}.

(** The result of a call that is known to return. *)
Definition returned {A : Type} (default : A) (m : Outcome A) : A :=
  match m with
  | Returns a => a
  | _ => default
  end.

Definition parsed `{Platform} `{!Collaborators}
    (runtime : Runtime) (jc : JitCompiler) : CompilerOptions :=
  match baseline_parse runtime jc with
  | Ok o => o
  | Err _ => compiler_options_ jc
  end.

Definition parsed_on (isa : InstructionSet) (runtime : Runtime)
    : @CompilerOptions (platform isa true) :=
  @parsed (platform isa true) (collaborators isa true) runtime
          (@fresh_object (platform isa true) (collaborators isa true)).

Definition run `{Platform} `{!Collaborators}
    (runtime : Runtime) (jc : JitCompiler) : JitCompiler * list string :=
  returned (jc, []) (ParseCompilerOptions runtime jc).

Definition tokens_c1 : list string :=
  [variant_token "cortex-a53"; features_token "bogus"; features_token "crc"].

Definition runtime_c1 : Runtime := runtime_with tokens_c1 false.

Definition tokens_c2 : list string :=
  ["--debuggable"; variant_token "bogus"; "-Xunknown"; features_token "crc";
   "--compile-pic"].

Definition runtime_c2 : Runtime := runtime_with tokens_c2 false.

Definition runtime_c4 : Runtime := runtime_with [] true.

(** The same host once it is no longer debuggable. *)
Definition runtime_c4_later : Runtime := runtime_with [] false.

Definition runtime_c5 : Runtime := runtime_with ["--compile-pic"] false.

Definition runtime_c6 : Runtime :=
  runtime_with ["--debuggable"; features_token "crc"; "-Xunknown"] false.

Definition created : JitCompiler :=
  fst (returned (fresh_object, []) (jit_load (runtime_with [] true))).

Definition runtime_c9 : Runtime :=
  runtime_with ["-Xunknown"; "--compiler-filter=bad"] false.

Definition runtime_c10 : Runtime :=
  runtime_with [variant_token "cortex-a53"; features_token "bogus"] false.

End SampleRuns.

(** ** Sequences of calls *)

Section Sequences.
Context `{FL : Platform} `{CO : !Collaborators}.

(** Updates of the options of one object, one after the other, each with
    the runtime as it is at that time. *)
Fixpoint update_all (jc : JitCompiler) (runtimes : list Runtime)
    : Outcome JitCompiler :=
  match runtimes with
  | [] => Returns jc
  | runtime :: rest =>
      r <- jit_update_options runtime (Some jc) ;; update_all (fst r) rest
  end.

(** The life of a facade object: created, then updated any number of times. *)
Definition session (runtime : Runtime) (updates : list Runtime)
    : Outcome JitCompiler :=
  r <- jit_load runtime ;; update_all (fst r) updates.

(** What holds of a facade object between calls. *)
Definition well_configured (jc : JitCompiler) : Prop :=
  compile_pic_ (compiler_options_ jc) = false /\
  (exists f, instruction_set_features_ (compiler_options_ jc) = Some f) /\
  (exists driver,
     compiler_driver_ jc = Some driver /\ dedupe_enabled_ driver = false) /\
  (generate_debug_info_ (compiler_options_ jc) = true ->
   jit_logger_ jc = Some {| log_is_open := true |}).

(** Features tokens applied one after the other to a baseline. *)
Fixpoint overlay_all (b : InstructionSetFeatures) (xs : list string)
    : Result InstructionSetFeatures :=
  match xs with
  | [] => Ok b
  | x :: rest =>
      match AddFeaturesFromString b x with
      | Ok b' => overlay_all b' rest
      | Err e => Err e
      end
  end.

(** The feature set the scan ends with, the warnings left aside. *)
Definition scanned_features (isa : InstructionSet) (tokens : list string)
    (f : option InstructionSetFeatures)
    : Outcome (option InstructionSetFeatures) :=
  outcome_map fst (scan_options isa tokens (f, [])).

End Sequences.

(** A compile request. *)
Record CompileRequest : Type := mkCompileRequest {
  request_self : Thread;
  request_method : ArtMethod;
  request_osr : bool
}.

(** The two [DCHECK]s of a compile call hold of a request. *)
Definition in_contract (r : CompileRequest) : Prop :=
  IsProxyMethod (request_method r) = false /\
  DeclaringClassIsResolved (request_method r) = true.

(** The thread of a request has no exception pending. *)
Definition no_pending_exception (r : CompileRequest) : Prop :=
  IsExceptionPending (request_self r) = false.

Definition is_compile (e : Event) : bool :=
  match e with CallJitCompile _ _ _ _ _ _ => true | _ => false end.

Definition is_trim (e : Event) : bool :=
  match e with CallTrimMaps => true | _ => false end.

Definition is_report (e : Event) : bool :=
  match e with CallAddTimingLogger _ => true | _ => false end.

Section CompileSequences.
Context `{FL : Platform} `{BE : Backend}.

(** Compile requests served one after the other through [jit_compile_method]
    on the handle of one object. *)
Fixpoint compile_all (jc : JitCompiler) (w : JitWorld)
    (requests : list CompileRequest) : Outcome (list bool * JitWorld) :=
  match requests with
  | [] => Returns ([], w)
  | r :: rest =>
      first <- jit_compile_method (Some jc) w (request_method r)
                                  (request_self r) (request_osr r) ;;
      others <- compile_all jc (snd first) rest ;;
      Returns (fst first :: fst others, snd others)
  end.

(** The answers of the backend alone to the same requests. *)
Fixpoint backend_answers (st : BackendState) (code_cache : JitCodeCache)
    (logger : option JitLogger) (requests : list CompileRequest) : list bool :=
  match requests with
  | [] => []
  | r :: rest =>
      let call := JitCompile st (request_self r) code_cache (request_method r)
                             false (request_osr r) logger in
      fst (fst call) :: backend_answers (snd (fst call)) code_cache logger rest
  end.

End CompileSequences.

Section TypeNotifications.
Context `{FL : Platform} `{DW : !DebugWriter}.

(** Notifications of loaded types delivered one after the other. *)
Fixpoint notify_all (current : Thread) (handle : option JitCompiler)
    (batches : list (list MirrorClass)) (registered : list DebugInfoEntry)
    : Outcome (list DebugInfoEntry) :=
  match batches with
  | [] => Returns registered
  | types :: rest =>
      registered' <- jit_types_loaded current handle types registered ;;
      notify_all current handle rest registered'
  end.

(** The entry one notification leaves. *)
Definition type_entry (current : Thread) (jc : JitCompiler)
    (types : list MirrorClass) : DebugInfoEntry :=
  {| entry_thread := current;
     entry_code_ptr := None;
     entry_elf_file :=
       WriteDebugElfFileForClasses
         kRuntimeISA (instruction_set_features_ (compiler_options_ jc)) types;
     entry_pack := PackElfFileForJIT;
     entry_isa := instruction_set_ (compiler_options_ jc);
     entry_features := instruction_set_features_ (compiler_options_ jc) |}.

End TypeNotifications.

(** ** More runs on the sample host *)

Module MoreSampleRuns.
Import SampleHost SampleRuns.

#[local] Existing Instance arm64.
#[local] Existing Instance arm64_collaborators.
#[local] Existing Instance sample_backend.

(** A writer whose file lists the classes by number. *)
Definition sample_writer : @DebugWriter arm64 :=
  {| MirrorClass := nat;
     WriteDebugElfFileForClasses := fun _ _ types =>
       map (fun n => match Byte.of_nat n with Some b => b | None => x00 end)
           types |}.

(** An object with debug info switched on, and one with it off. *)
Definition with_debug_info : JitCompiler :=
  fst (returned (fresh_object, [])
         (jit_load (runtime_with ["--generate-debug-info"] false))).

Definition without_debug_info : JitCompiler := created.

Definition method_proxy : ArtMethod :=
  {| PrettyMethod := "void $Proxy0.run()";
     IsProxyMethod := true;
     DeclaringClassIsResolved := true |}.

Definition requests : list CompileRequest :=
  [{| request_self := worker; request_method := method_foo;
      request_osr := false |};
   {| request_self := worker; request_method := method_native;
      request_osr := true |}].

Definition nul_token (v junk : string) : string :=
  (v ++ String Ascii.zero junk)%string.

(** An object that held the kryo baseline before its options are updated. *)
Definition with_kryo : JitCompiler :=
  fst (run (runtime_with [variant_token "kryo"] false) fresh_object).


Definition runtime_x9 : Runtime :=
  runtime_with [features_token "crc"; "-Xunknown"; variant_token "kryo";
                "--debuggable"] false.

Definition runtime_debug_info : Runtime :=
  runtime_with ["--generate-debug-info"] false.

(** Created with debug info on, then updated twice. *)
Definition updates : list Runtime :=
  [runtime_with ["--generate-debug-info"; variant_token "kryo"] true;
   runtime_with ["--compile-pic"] false].

Definition session_object : JitCompiler :=
  returned fresh_object (session runtime_debug_info updates).

(** A feature library that does not know the "default" variant, with a
    parser that accepts every token. *)
Definition no_default : Platform :=
  {| InstructionSetFeatures := Features;
     FromVariant := fun _ variant =>
       if String.eqb variant "kryo"
       then Ok {| baseline := variant; overlay := [] |}
       else Err ("Unexpected CPU variant for Arm64: " ++ variant)%string;
     AddFeaturesFromString := sample_AddFeaturesFromString;
     FromCppDefines := {| baseline := "cpp-defines"; overlay := [] |};
     kRuntimeISA := kArm64;
     kIsDebugBuild := true |}.

Definition no_default_collaborators : @Collaborators no_default :=
  {| kDefaultInlineMaxCodeUnits := (-1)%Z;
     new_CompilerOptions :=
       {| instruction_set_ := kArm64;
          instruction_set_features_ := None;
          debuggable_ := false;
          compile_pic_ := false;
          inline_max_code_units_ := (-1)%Z;
          generate_debug_info_ := false;
          compiling_with_core_image_ := false |};
     CompilerOptions_ParseCompilerOptions := fun o _ _ => Ok o;
     IsCoreImageFilename := fun _ => false;
     new_CompilerDriver := fun _ kind threads fd =>
       {| compiler_kind_ := kind; thread_count_ := threads;
          swap_fd_ := fd; dedupe_enabled_ := true |} |}.

End MoreSampleRuns.

(** * Properties *)

(** Closes a goal whose premise equates two different ways to end. *)
Ltac clash := let H := fresh "H" in intros H; discriminate H.

(** Settles a premise at a concrete input by evaluation. *)
Ltac evaluate :=
  first [ reflexivity | now right | solve [repeat constructor] ].

(** ** The shape of tokens *)

Lemma from_data_nul_free (s : string) : nul_free s = true -> from_data s = s.
Proof.
  induction s as [|c s IH]; simpl; [reflexivity|].
  destruct (Ascii.eqb c zero); simpl; [discriminate|].
  intros E. now rewrite IH.
Qed.

Lemma variant_token_starts (v : string) :
  starts_with (variant_token v) variant_prefix = true.
Proof. reflexivity. Qed.

Lemma variant_token_value (v : string) :
  substr (variant_token v) (String.length variant_prefix) = v.
Proof. reflexivity. Qed.

Lemma features_token_not_variant (x : string) :
  starts_with (features_token x) variant_prefix = false.
Proof. reflexivity. Qed.

Lemma features_token_starts (x : string) :
  starts_with (features_token x) features_prefix = true.
Proof. reflexivity. Qed.

Lemma features_token_value (x : string) :
  substr (features_token x) (String.length features_prefix) = x.
Proof. reflexivity. Qed.

(** ** The scan over the tokens *)

Section ScanFacts.
Context `{FL : Platform}.
Variable isa : InstructionSet.

Lemma scan_options_app (a b : list string) (st : ScanState) :
  scan_options isa (a ++ b) st =
  (st' <- scan_options isa a st ;; scan_options isa b st').
Proof.
  revert st. induction a as [|t a IH]; intros st; simpl; [reflexivity|].
  destruct (scan_option isa st t); simpl; auto.
Qed.

Lemma scan_option_irrelevant (st : ScanState) (t : string) :
  relevant t = false -> scan_option isa st t = Returns st.
Proof.
  unfold relevant. intros E. apply orb_false_elim in E as [Ev Ef].
  unfold scan_option. destruct st as [f log]. now rewrite Ev, Ef.
Qed.

Lemma scan_options_irrelevant (l : list string) (st : ScanState) :
  Forall (fun t => relevant t = false) l -> scan_options isa l st = Returns st.
Proof.
  induction 1 as [|t l Ht _ IH]; simpl; [reflexivity|].
  now rewrite (scan_option_irrelevant st t Ht).
Qed.

Lemma scan_variant_token (f : option InstructionSetFeatures)
    (log : list string) (v : string) :
  nul_free v = true ->
  scan_option isa (f, log) (variant_token v) =
  match FromVariant isa v with
  | Ok f' => Returns (Some f', log)
  | Err e => Returns (None, log ++ [parse_warning (variant_token v) e])
  end.
Proof.
  intros Hv. unfold scan_option.
  rewrite variant_token_starts, variant_token_value, (from_data_nul_free _ Hv).
  reflexivity.
Qed.

Lemma scan_features_token (f : option InstructionSetFeatures)
    (log : list string) (x : string) (b f' : InstructionSetFeatures) :
  nul_free x = true ->
  baseline_for isa f = Ok b ->
  AddFeaturesFromString b x = Ok f' ->
  scan_option isa (f, log) (features_token x) = Returns (Some f', log).
Proof.
  intros Hx Hb Hadd. unfold scan_option.
  rewrite features_token_not_variant, features_token_starts,
          features_token_value, (from_data_nul_free _ Hx).
  destruct f as [f0|]; simpl in Hb.
  - injection Hb as ->. now rewrite Hadd.
  - rewrite Hb. now rewrite Hadd.
Qed.

(** A malformed token logs one warning that names it and leaves the scan
    with no feature set at all. *)
Lemma scan_option_malformed (f : option InstructionSetFeatures)
    (log : list string) (t : string) :
  malformed_token isa f t = true ->
  exists e, scan_option isa (f, log) t =
            Returns (None, log ++ [parse_warning t e]).
Proof.
  unfold malformed_token, scan_option.
  destruct (starts_with t variant_prefix).
  - destruct (FromVariant isa _) as [g|e]; [discriminate|]. intros _. now exists e.
  - destruct (starts_with t features_prefix); [|discriminate].
    destruct f as [f0|]; simpl.
    + destruct (AddFeaturesFromString f0 _) as [g|e]; [discriminate|].
      intros _. now exists e.
    + destruct (FromVariant isa "default") as [b|e0]; [|discriminate].
      destruct (AddFeaturesFromString b _) as [g|e]; [discriminate|].
      intros _. now exists e.
Qed.

(** The warnings already logged do not influence the scan. *)
Lemma scan_option_log (f : option InstructionSetFeatures)
    (log : list string) (t : string) :
  scan_option isa (f, log) t =
  (st <- scan_option isa (f, []) t ;; Returns (fst st, log ++ snd st)).
Proof.
  unfold scan_option.
  destruct (starts_with t variant_prefix).
  - destruct (FromVariant isa _); simpl; now rewrite ?app_nil_r.
  - destruct (starts_with t features_prefix); simpl; [|now rewrite app_nil_r].
    destruct f as [f0|].
    + destruct (AddFeaturesFromString f0 _); simpl; now rewrite ?app_nil_r.
    + destruct (FromVariant isa "default") as [b|e0]; [|reflexivity].
      destruct (AddFeaturesFromString b _); simpl; now rewrite ?app_nil_r.
Qed.

Lemma scan_options_log (l : list string) (f : option InstructionSetFeatures)
    (log : list string) :
  scan_options isa l (f, log) =
  (st <- scan_options isa l (f, []) ;; Returns (fst st, log ++ snd st)).
Proof.
  revert f log. induction l as [|t l IH]; intros f log; cbn [scan_options].
  - simpl. now rewrite app_nil_r.
  - rewrite (scan_option_log f log t).
    destruct (scan_option isa (f, []) t) as [[f1 log1]| | |]; simpl; auto.
    rewrite (IH f1 (log ++ log1)), (IH f1 log1).
    destruct (scan_options isa l (f1, [])) as [[f2 log2]| | |]; simpl; auto.
    now rewrite app_assoc.
Qed.

(** With a usable "default" baseline the scan runs through every token. *)
Lemma scan_option_returns (b : InstructionSetFeatures) (st : ScanState)
    (t : string) :
  FromVariant isa "default" = Ok b ->
  exists st', scan_option isa st t = Returns st'.
Proof.
  intros Hd. destruct st as [f log]. unfold scan_option.
  destruct (starts_with t variant_prefix).
  - destruct (FromVariant isa (from_data _)); eexists; reflexivity.
  - destruct (starts_with t features_prefix); [|eexists; reflexivity].
    destruct f as [f0|].
    + destruct (AddFeaturesFromString f0 _); eexists; reflexivity.
    + rewrite Hd. destruct (AddFeaturesFromString b _); eexists; reflexivity.
Qed.

Lemma scan_options_returns (b : InstructionSetFeatures) (l : list string)
    (st : ScanState) :
  FromVariant isa "default" = Ok b ->
  exists st', scan_options isa l st = Returns st'.
Proof.
  intros Hd. revert st.
  induction l as [|t l IH]; intros st; cbn [scan_options].
  - eexists; reflexivity.
  - destruct (scan_option_returns b st t Hd) as [st1 ->]. simpl. apply IH.
Qed.

(** The slip behind the scan: when the "default" baseline itself is
    rejected, a features token met with no feature set in hand is logged
    and then dereferences the empty pointer. *)
Lemma scan_features_without_default (log : list string) (x e : string) :
  FromVariant isa "default" = Err e ->
  scan_option isa (None, log) (features_token x) = NullDereference.
Proof.
  intros Hd. unfold scan_option.
  rewrite features_token_not_variant, features_token_starts.
  now rewrite Hd.
Qed.

(** The scan ends by returning or at the empty pointer, in no other way. *)
Lemma scan_option_ends (st : ScanState) (t : string) :
  (exists st', scan_option isa st t = Returns st') \/
  scan_option isa st t = NullDereference.
Proof.
  destruct st as [f log]. unfold scan_option.
  destruct (starts_with t variant_prefix).
  - left. destruct (FromVariant isa _); eexists; reflexivity.
  - destruct (starts_with t features_prefix); [|left; eexists; reflexivity].
    destruct f as [f0|].
    + left. destruct (AddFeaturesFromString f0 _); eexists; reflexivity.
    + destruct (FromVariant isa "default") as [b|e0]; [|now right].
      left. destruct (AddFeaturesFromString b _); eexists; reflexivity.
Qed.

Lemma scan_options_ends (l : list string) (st : ScanState) :
  (exists st', scan_options isa l st = Returns st') \/
  scan_options isa l st = NullDereference.
Proof.
  revert st. induction l as [|t l IH]; intros st; cbn [scan_options].
  - left. eexists; reflexivity.
  - destruct (scan_option_ends st t) as [[st1 ->]| ->]; simpl; auto.
Qed.

End ScanFacts.

(** ** The resolver as a whole *)

Lemma InstructionSet_eqb_eq (a b : InstructionSet) :
  InstructionSet_eqb a b = true <-> a = b.
Proof. destruct a, b; simpl; split; congruence. Qed.

Section ResolverFacts.
Context `{FL : Platform} `{CO : !Collaborators}.

Lemma DCHECK_EQ_passes (a b : InstructionSet) :
  DCHECK_EQ a b = Returns tt <-> (kIsDebugBuild = false \/ a = b).
Proof.
  unfold DCHECK_EQ. destruct kIsDebugBuild; simpl.
  - destruct (InstructionSet_eqb a b) eqn:E; simpl.
    + split; [intros _; right; now apply InstructionSet_eqb_eq|reflexivity].
    + split; [discriminate|]. intros [H|H]; [discriminate|].
      apply InstructionSet_eqb_eq in H. congruence.
  - split; [now left|reflexivity].
Qed.

Lemma ParseCompilerOptions_after_parse (runtime : Runtime) (jc : JitCompiler)
    (o1 : CompilerOptions) :
  baseline_parse runtime jc = Ok o1 ->
  ParseCompilerOptions runtime jc =
  (DCHECK_EQ (instruction_set_ o1) expected_instruction_set ;;;
   st <- scan_options (instruction_set_ o1) (GetCompilerOptions runtime)
                      (None, []) ;;
   Returns (resolved runtime jc o1 (fst st), snd st)).
Proof.
  unfold baseline_parse, parser_input, ParseCompilerOptions. intros ->.
  unfold expected_instruction_set, resolved.
  destruct (InstructionSet_eqb kRuntimeISA kArm);
    destruct (debuggable_ o1) eqn:Ed;
    unfold GetDebuggable, GetInstructionSet, GetGenerateDebugInfo,
           set_features_and_core_image, SetDebuggable, SetNonPic, OpenLog;
    simpl; rewrite ?Ed; simpl; reflexivity.
Qed.

Lemma ParseCompilerOptions_fatal (runtime : Runtime) (jc : JitCompiler)
    (msg : string) :
  ParseCompilerOptions runtime jc = FatalAbort msg <->
  baseline_parse runtime jc = Err msg.
Proof.
  split.
  - destruct (baseline_parse runtime jc) as [o1|e] eqn:Hp.
    + rewrite (ParseCompilerOptions_after_parse runtime jc o1 Hp).
      unfold DCHECK_EQ.
      destruct (kIsDebugBuild && _); simpl; [clash|].
      destruct (scan_options_ends (instruction_set_ o1)
                  (GetCompilerOptions runtime) (None, [])) as [[st ->]| ->];
        simpl; clash.
    + unfold baseline_parse, parser_input in Hp.
      unfold ParseCompilerOptions. rewrite Hp. congruence.
  - unfold baseline_parse, parser_input, ParseCompilerOptions. now intros ->.
Qed.

(** What a completed run says about its own steps. *)
Lemma ParseCompilerOptions_returns (runtime : Runtime) (jc jc' : JitCompiler)
    (log : list string) :
  ParseCompilerOptions runtime jc = Returns (jc', log) ->
  exists o1 f,
    baseline_parse runtime jc = Ok o1 /\
    instruction_set_checked o1 /\
    scan_options (instruction_set_ o1) (GetCompilerOptions runtime) (None, [])
      = Returns (f, log) /\
    jc' = resolved runtime jc o1 f.
Proof.
  intros H.
  destruct (baseline_parse runtime jc) as [o1|e] eqn:Hp.
  - rewrite (ParseCompilerOptions_after_parse runtime jc o1 Hp) in H.
    revert H.
    destruct (DCHECK_EQ _ _) as [[]| | |] eqn:Hc; simpl; try clash.
    destruct (scan_options _ _ _) as [[f lg]| | |] eqn:Hs; simpl; try clash.
    intros H. injection H as <- <-. exists o1, f.
    repeat split; auto. now apply DCHECK_EQ_passes.
  - apply ParseCompilerOptions_fatal in Hp. congruence.
Qed.

(** A run whose parse, assertion and scan go through completes. *)
Lemma ParseCompilerOptions_completes (runtime : Runtime) (jc : JitCompiler)
    (o1 : CompilerOptions) (f : option InstructionSetFeatures)
    (log : list string) :
  baseline_parse runtime jc = Ok o1 ->
  instruction_set_checked o1 ->
  scan_options (instruction_set_ o1) (GetCompilerOptions runtime) (None, [])
    = Returns (f, log) ->
  ParseCompilerOptions runtime jc = Returns (resolved runtime jc o1 f, log).
Proof.
  intros Hp Hc Hs.
  rewrite (ParseCompilerOptions_after_parse runtime jc o1 Hp).
  apply DCHECK_EQ_passes in Hc. rewrite Hc. simpl. now rewrite Hs.
Qed.

End ResolverFacts.

(** ** Feature-set resolution *)

Section FeatureResolution.
Context `{FL : Platform} `{CO : !Collaborators}.

(** C1 (as the code has it): a malformed variant or features token is
    logged as a warning naming it, and it discards everything the scan had
    built, not only its own contribution: the feature set a completed run
    ends with is the one the tokens after the malformed token produce on
    their own (the host-detected capabilities when they produce none). *)
Theorem malformed_token_discards_earlier_features
    (runtime : Runtime) (jc jc' : JitCompiler) (log : list string)
    (o1 : CompilerOptions) (pre post : list string) (t : string)
    (f_pre : option InstructionSetFeatures) (log_pre : list string) :
  GetCompilerOptions runtime = pre ++ t :: post ->
  baseline_parse runtime jc = Ok o1 ->
  scan_options (instruction_set_ o1) pre (None, []) = Returns (f_pre, log_pre) ->
  malformed_token (instruction_set_ o1) f_pre t = true ->
  ParseCompilerOptions runtime jc = Returns (jc', log) ->
  (exists e, In (parse_warning t e) log) /\
  exists f_post log_post,
    scan_options (instruction_set_ o1) post (None, []) =
      Returns (f_post, log_post) /\
    resolved_features (jc', log) = Some (features_or_cpp_defines f_post).
Proof.
  intros Htok Hp Hpre Hbad Hrun.
  apply ParseCompilerOptions_returns in Hrun
    as (o1' & f & Hp' & _ & Hscan & ->).
  rewrite Hp in Hp'. injection Hp' as <-.
  rewrite Htok, scan_options_app, Hpre in Hscan. cbn [bind scan_options] in Hscan.
  destruct (scan_option_malformed (instruction_set_ o1) f_pre log_pre t Hbad)
    as [e He].
  rewrite He in Hscan. cbn [bind] in Hscan.
  rewrite scan_options_log in Hscan.
  destruct (scan_options (instruction_set_ o1) post (None, []))
    as [[f_post log_post]| | |] eqn:Hpost; simpl in Hscan; try discriminate.
  injection Hscan as <- <-. split.
  - exists e. apply in_or_app. left. apply in_or_app. right. now left.
  - now exists f_post, log_post.
Qed.

(** C2 (as the code has it): a malformed variant token followed by a valid
    features token [x], with no variant or features token between them or
    after the features token: the run completes and holds the "default"
    baseline overlaid with [x].  (A later variant or features token goes on
    changing the feature set.) *)
Theorem malformed_variant_then_features
    (runtime : Runtime) (jc : JitCompiler) (o1 : CompilerOptions)
    (pre mid post : list string) (bad x e : string)
    (b f : InstructionSetFeatures) :
  GetCompilerOptions runtime =
    pre ++ variant_token bad :: mid ++ features_token x :: post ->
  Forall (fun t => relevant t = false) mid ->
  Forall (fun t => relevant t = false) post ->
  nul_free bad = true ->
  nul_free x = true ->
  baseline_parse runtime jc = Ok o1 ->
  instruction_set_checked o1 ->
  FromVariant (instruction_set_ o1) bad = Err e ->
  FromVariant (instruction_set_ o1) "default" = Ok b ->
  AddFeaturesFromString b x = Ok f ->
  exists jc' log,
    ParseCompilerOptions runtime jc = Returns (jc', log) /\
    resolved_features (jc', log) = Some f.
Proof.
  intros Htok Hmid Hpost Hbad Hx Hp Hc Hv Hd Hadd.
  set (isa := instruction_set_ o1) in *.
  destruct (scan_options_returns isa b pre (None, []) Hd) as [[f0 log0] Hpre].
  assert (Hscan : scan_options isa (GetCompilerOptions runtime) (None, []) =
                  Returns (Some f,
                           log0 ++ [parse_warning (variant_token bad) e])).
  { rewrite Htok, scan_options_app, Hpre. cbn [bind scan_options].
    rewrite (scan_variant_token isa f0 log0 bad Hbad), Hv. cbn [bind].
    rewrite scan_options_app, (scan_options_irrelevant isa mid _ Hmid).
    cbn [bind scan_options].
    rewrite (scan_features_token isa None _ x b f Hx Hd Hadd). cbn [bind].
    apply (scan_options_irrelevant isa post _ Hpost). }
  eexists; eexists; split.
  - apply (ParseCompilerOptions_completes runtime jc o1 _ _ Hp Hc Hscan).
  - reflexivity.
Qed.

(** C3: the three shapes of the resolved feature set.  Only a features
    token [x]: "default" overlaid with [x].  A variant token [v] followed by
    a features token [x]: baseline [v] overlaid with [x].  No variant or
    features token: the host-build-detected capabilities.  Tokens of other
    kinds may stand anywhere. *)
Theorem feature_set_shapes (jc : JitCompiler) :
  (forall runtime o1 pre post x b f,
     baseline_parse runtime jc = Ok o1 ->
     instruction_set_checked o1 ->
     GetCompilerOptions runtime = pre ++ features_token x :: post ->
     Forall (fun t => relevant t = false) pre ->
     Forall (fun t => relevant t = false) post ->
     nul_free x = true ->
     FromVariant (instruction_set_ o1) "default" = Ok b ->
     AddFeaturesFromString b x = Ok f ->
     exists jc' log,
       ParseCompilerOptions runtime jc = Returns (jc', log) /\
       resolved_features (jc', log) = Some f) /\
  (forall runtime o1 pre mid post v x b f,
     baseline_parse runtime jc = Ok o1 ->
     instruction_set_checked o1 ->
     GetCompilerOptions runtime =
       pre ++ variant_token v :: mid ++ features_token x :: post ->
     Forall (fun t => relevant t = false) pre ->
     Forall (fun t => relevant t = false) mid ->
     Forall (fun t => relevant t = false) post ->
     nul_free v = true ->
     nul_free x = true ->
     FromVariant (instruction_set_ o1) v = Ok b ->
     AddFeaturesFromString b x = Ok f ->
     exists jc' log,
       ParseCompilerOptions runtime jc = Returns (jc', log) /\
       resolved_features (jc', log) = Some f) /\
  (forall runtime o1,
     baseline_parse runtime jc = Ok o1 ->
     instruction_set_checked o1 ->
     Forall (fun t => relevant t = false) (GetCompilerOptions runtime) ->
     exists jc' log,
       ParseCompilerOptions runtime jc = Returns (jc', log) /\
       resolved_features (jc', log) = Some FromCppDefines).
Proof.
  assert (Hdone : forall runtime o1 fs lg,
             baseline_parse runtime jc = Ok o1 ->
             instruction_set_checked o1 ->
             scan_options (instruction_set_ o1) (GetCompilerOptions runtime)
                          (None, []) = Returns (fs, lg) ->
             exists jc' log,
               ParseCompilerOptions runtime jc = Returns (jc', log) /\
               resolved_features (jc', log) = Some (features_or_cpp_defines fs)).
  { intros runtime o1 fs lg Hp Hc Hscan. eexists; eexists; split.
    - apply (ParseCompilerOptions_completes runtime jc o1 _ _ Hp Hc Hscan).
    - reflexivity. }
  split; [|split].
  - intros runtime o1 pre post x b f Hp Hc Htok Hpre Hpost Hx Hd Hadd.
    set (isa := instruction_set_ o1) in *.
    apply (Hdone runtime o1 (Some f) [] Hp Hc). fold isa.
    rewrite Htok, scan_options_app, (scan_options_irrelevant isa pre _ Hpre).
    cbn [bind scan_options].
    rewrite (scan_features_token isa None _ x b f Hx Hd Hadd). cbn [bind].
    apply (scan_options_irrelevant isa post _ Hpost).
  - intros runtime o1 pre mid post v x b f
           Hp Hc Htok Hpre Hmid Hpost Hv Hx Hb Hadd.
    set (isa := instruction_set_ o1) in *.
    apply (Hdone runtime o1 (Some f) [] Hp Hc). fold isa.
    rewrite Htok, scan_options_app, (scan_options_irrelevant isa pre _ Hpre).
    cbn [bind scan_options].
    rewrite (scan_variant_token isa None [] v Hv), Hb. cbn [bind].
    rewrite scan_options_app, (scan_options_irrelevant isa mid _ Hmid).
    cbn [bind scan_options].
    rewrite (scan_features_token isa (Some b) _ x b f Hx eq_refl Hadd).
    cbn [bind].
    apply (scan_options_irrelevant isa post _ Hpost).
  - intros runtime o1 Hp Hc Hall.
    apply (Hdone runtime o1 None [] Hp Hc).
    apply (scan_options_irrelevant _ _ _ Hall).
Qed.

(** The scan ends with no feature set when the last token it looks at is
    malformed. *)
Lemma scan_ends_empty_after_malformed (isa : InstructionSet)
    (pre post : list string) (t : string)
    (f_pre : option InstructionSetFeatures) (log_pre : list string) :
  scan_options isa pre (None, []) = Returns (f_pre, log_pre) ->
  malformed_token isa f_pre t = true ->
  Forall (fun t => relevant t = false) post ->
  exists lg, scan_options isa (pre ++ t :: post) (None, []) = Returns (None, lg).
Proof.
  intros Hpre Hbad Hpost.
  destruct (scan_option_malformed isa f_pre log_pre t Hbad) as [e He].
  exists (log_pre ++ [parse_warning t e]).
  rewrite scan_options_app, Hpre. cbn [bind scan_options].
  rewrite He. cbn [bind]. apply (scan_options_irrelevant isa post _ Hpost).
Qed.

(** C10: a run that completes holds a feature set, and whenever the scan
    ended with none built it is the host-build-detected one; this includes
    the run whose variant and features tokens were there but whose last
    contribution was malformed and dropped. *)
Theorem features_never_null
    (runtime : Runtime) (jc jc' : JitCompiler) (log : list string) :
  ParseCompilerOptions runtime jc = Returns (jc', log) ->
  exists o1 f_scan,
    baseline_parse runtime jc = Ok o1 /\
    scan_options (instruction_set_ o1) (GetCompilerOptions runtime) (None, [])
      = Returns (f_scan, log) /\
    resolved_features (jc', log) =
      Some (match f_scan with Some f => f | None => FromCppDefines end) /\
    (f_scan = None -> resolved_features (jc', log) = Some FromCppDefines) /\
    (forall pre t post f_pre log_pre,
       GetCompilerOptions runtime = pre ++ t :: post ->
       scan_options (instruction_set_ o1) pre (None, [])
         = Returns (f_pre, log_pre) ->
       malformed_token (instruction_set_ o1) f_pre t = true ->
       Forall (fun t => relevant t = false) post ->
       resolved_features (jc', log) = Some FromCppDefines).
Proof.
  intros Hrun.
  apply ParseCompilerOptions_returns in Hrun as (o1 & f & Hp & _ & Hscan & ->).
  exists o1, f. repeat split; auto.
  - now intros ->.
  - intros pre t post f_pre log_pre Htok Hpre Hbad Hpost.
    destruct (scan_ends_empty_after_malformed
                (instruction_set_ o1) pre post t f_pre log_pre Hpre Hbad Hpost)
      as [lg Hlg].
    rewrite Htok, Hlg in Hscan. injection Hscan as <- <-. reflexivity.
Qed.

End FeatureResolution.

(** ** The flags and the instruction set *)

Section Flags.
Context `{FL : Platform} `{CO : !Collaborators}.

Lemma JitCompiler_new_returns (runtime : Runtime) (jc' : JitCompiler)
    (log : list string) :
  JitCompiler_new runtime = Returns (jc', log) ->
  exists jc1,
    ParseCompilerOptions runtime fresh_object = Returns (jc1, log) /\
    compiler_options_ jc' = compiler_options_ jc1 /\
    compiler_driver_ jc' =
      Some (SetDedupeEnabled
              (new_CompilerDriver (compiler_options_ jc1) kOptimizing 1 (-1))
              false) /\
    jit_logger_ jc' = jit_logger_ jc1.
Proof.
  unfold JitCompiler_new. fold fresh_object.
  destruct (ParseCompilerOptions runtime fresh_object) as [[jc1 lg]| | |];
    simpl; try clash.
  intros H. injection H as <- <-. exists jc1. repeat split; reflexivity.
Qed.

(** Every run of the resolver is a run of [ParseCompilerOptions] whose
    options are the ones the run leaves. *)
Lemma run_resolver_returns (runtime : Runtime) (r : ResolverRun)
    (jc' : JitCompiler) (log : list string) :
  run_resolver runtime r = Returns (jc', log) ->
  exists jc jc1,
    ParseCompilerOptions runtime jc = Returns (jc1, log) /\
    compiler_options_ jc' = compiler_options_ jc1.
Proof.
  destruct r as [|[jc|]]; simpl.
  - intros H. apply JitCompiler_new_returns in H as (jc1 & H1 & H2 & _).
    now exists fresh_object, jc1.
  - intros H. now exists jc, jc'.
  - destruct kIsDebugBuild; clash.
Qed.

(** C5: after each run of the resolver, at creation and at every update,
    the position-independent-code flag is false, whatever the tokens ask
    for. *)
Theorem position_independent_code_always_off
    (runtime : Runtime) (r : ResolverRun) (jc' : JitCompiler)
    (log : list string) :
  run_resolver runtime r = Returns (jc', log) ->
  compile_pic_ (compiler_options_ jc') = false.
Proof.
  intros H. apply run_resolver_returns in H as (jc & jc1 & H & ->).
  apply ParseCompilerOptions_returns in H as (o1 & f & _ & _ & _ & ->).
  reflexivity.
Qed.

(** What the guard on the debuggable flag does: it tests the value of the
    flag after the structured parse, so the resolved flag is that value or
    the live debuggability of the host. *)
Lemma debuggable_is_parsed_or_host
    (runtime : Runtime) (jc jc' : JitCompiler) (log : list string)
    (o1 : CompilerOptions) :
  baseline_parse runtime jc = Ok o1 ->
  ParseCompilerOptions runtime jc = Returns (jc', log) ->
  debuggable_ (compiler_options_ jc') =
    debuggable_ o1 || IsJavaDebuggable runtime /\
  (debuggable_ o1 = true -> debuggable_ (compiler_options_ jc') = true) /\
  (debuggable_ o1 = false ->
   debuggable_ (compiler_options_ jc') = IsJavaDebuggable runtime).
Proof.
  intros Hp H.
  apply ParseCompilerOptions_returns in H as (o1' & f & Hp' & _ & _ & ->).
  rewrite Hp in Hp'. injection Hp' as <-. simpl.
  repeat split; intros; try rewrite H; reflexivity.
Qed.

(** C6: when the structured parse succeeds, resolution does not abort: it
    takes neither the fatal path nor fails the assertion on the instruction
    set, and it runs to completion; on completion the resolved instruction
    set is the one of the host, Thumb2 standing for 32-bit ARM.  The options
    enter the run with that instruction set and the structured parser
    leaves it alone; completion relies on the feature library knowing the
    "default" variant. *)
Theorem resolution_completes_with_host_instruction_set
    (runtime : Runtime) (jc : JitCompiler) (o1 : CompilerOptions) :
  (forall o tokens o',
     CompilerOptions_ParseCompilerOptions o tokens true = Ok o' ->
     instruction_set_ o' = instruction_set_ o) ->
  instruction_set_ (compiler_options_ jc) = expected_instruction_set ->
  baseline_parse runtime jc = Ok o1 ->
  (forall what, ParseCompilerOptions runtime jc <> CheckFailure what) /\
  (forall msg, ParseCompilerOptions runtime jc <> FatalAbort msg) /\
  (forall jc' log,
     ParseCompilerOptions runtime jc = Returns (jc', log) ->
     instruction_set_ (compiler_options_ jc') = expected_instruction_set /\
     (kRuntimeISA = kArm ->
      instruction_set_ (compiler_options_ jc') = kThumb2) /\
     (kRuntimeISA <> kArm ->
      instruction_set_ (compiler_options_ jc') = kRuntimeISA)) /\
  (forall b,
     FromVariant expected_instruction_set "default" = Ok b ->
     exists jc' log, ParseCompilerOptions runtime jc = Returns (jc', log)).
Proof.
  intros Hkeep Hisa Hp.
  assert (Ho1 : instruction_set_ o1 = expected_instruction_set).
  { unfold baseline_parse in Hp. now rewrite (Hkeep _ _ _ Hp). }
  assert (Hc : DCHECK_EQ (instruction_set_ o1) expected_instruction_set
               = Returns tt).
  { apply DCHECK_EQ_passes. now right. }
  pose proof (ParseCompilerOptions_after_parse runtime jc o1 Hp) as Hrun.
  rewrite Hc in Hrun. cbn [bind] in Hrun.
  split; [|split; [|split]].
  - intros what. rewrite Hrun.
    destruct (scan_options_ends (instruction_set_ o1)
                (GetCompilerOptions runtime) (None, [])) as [[st ->]| ->];
      simpl; discriminate.
  - intros msg. rewrite Hrun.
    destruct (scan_options_ends (instruction_set_ o1)
                (GetCompilerOptions runtime) (None, [])) as [[st ->]| ->];
      simpl; discriminate.
  - intros jc' log H.
    apply ParseCompilerOptions_returns in H as (o1' & f & Hp' & _ & _ & ->).
    rewrite Hp in Hp'. injection Hp' as <-. simpl. rewrite Ho1.
    split; [reflexivity|]. unfold expected_instruction_set. split.
    + now intros ->.
    + intros E.
      destruct (InstructionSet_eqb kRuntimeISA kArm) eqn:Eb; [|reflexivity].
      apply InstructionSet_eqb_eq in Eb. contradiction.
  - intros b Hd. rewrite <- Ho1 in Hd.
    destruct (scan_options_returns (instruction_set_ o1) b
                (GetCompilerOptions runtime) (None, []) Hd) as [[f lg] Hscan].
    exists (resolved runtime jc o1 f), lg.
    rewrite Hrun, Hscan. reflexivity.
Qed.

(** The structured parser changes the instruction set only if a recognized
    token does. *)
Lemma structured_parse_keeps_instruction_set
    (classify : string -> TokenClass) :
  (forall t update o,
     classify t = Recognized update ->
     instruction_set_ (update o) = instruction_set_ o) ->
  forall tokens o ignore_unrecognized o',
    structured_parse classify o tokens ignore_unrecognized = Ok o' ->
    instruction_set_ o' = instruction_set_ o.
Proof.
  intros Hkeep tokens. induction tokens as [|t tokens IH];
    intros o ign o'; simpl.
  - intros E. now injection E as <-.
  - destruct (classify t) as [|e|update] eqn:Ec.
    + destruct ign; [apply IH|clash].
    + clash.
    + intros E. rewrite (IH _ _ _ E). exact (Hkeep t update o Ec).
Qed.

(** The structured parser tolerates what it does not recognize when told
    to: it fails only on a recognized token with a bad value. *)
Lemma structured_parse_tolerant (classify : string -> TokenClass)
    (tokens : list string) (o : CompilerOptions) (msg : string) :
  structured_parse classify o tokens true = Err msg ->
  exists t, In t tokens /\ classify t = Malformed msg.
Proof.
  revert o. induction tokens as [|t tokens IH]; intros o; simpl; [clash|].
  destruct (classify t) as [|e|update] eqn:Ec.
  - intros H. destruct (IH _ H) as (t' & Hin & Ht'). eauto.
  - intros H. injection H as ->. eauto.
  - intros H. destruct (IH _ H) as (t' & Hin & Ht'). eauto.
Qed.

(** With the flag off the same parser rejects an unrecognized token. *)
Lemma structured_parse_strict (classify : string -> TokenClass)
    (t : string) (rest : list string) (o : CompilerOptions) :
  classify t = Unrecognized ->
  structured_parse classify o (t :: rest) false
    = Err ("Unknown argument: " ++ t)%string.
Proof. intros H. simpl. now rewrite H. Qed.

(** C9: the resolver calls the structured parser with the tolerance for
    unrecognized tokens switched on, so the fatal path is taken exactly when
    that tolerant parse fails, which an unrecognized token never causes:
    behind every fatal abort stands a recognized token with a bad value,
    and tokens that are all recognized or unrecognized never abort. *)
Theorem unrecognized_tokens_never_fatal
    (classify : string -> TokenClass) (runtime : Runtime) (jc : JitCompiler) :
  (forall o tokens ignore_unrecognized,
     CompilerOptions_ParseCompilerOptions o tokens ignore_unrecognized =
     structured_parse classify o tokens ignore_unrecognized) ->
  (forall msg,
     ParseCompilerOptions runtime jc = FatalAbort msg <->
     structured_parse classify (parser_input jc)
                      (GetCompilerOptions runtime) true = Err msg) /\
  (forall msg,
     ParseCompilerOptions runtime jc = FatalAbort msg ->
     exists t, In t (GetCompilerOptions runtime) /\ classify t = Malformed msg) /\
  (Forall (fun t => forall e, classify t <> Malformed e)
          (GetCompilerOptions runtime) ->
   forall msg, ParseCompilerOptions runtime jc <> FatalAbort msg).
Proof.
  intros Hparser.
  assert (Hfatal : forall msg,
             ParseCompilerOptions runtime jc = FatalAbort msg <->
             structured_parse classify (parser_input jc)
                              (GetCompilerOptions runtime) true = Err msg).
  { intros msg. rewrite ParseCompilerOptions_fatal. unfold baseline_parse.
    now rewrite Hparser. }
  split; [exact Hfatal|split].
  - intros msg H. apply Hfatal in H.
    apply (structured_parse_tolerant _ _ _ _ H).
  - intros Hall msg H. apply Hfatal in H.
    apply structured_parse_tolerant in H as (t & Hin & Ht).
    rewrite Forall_forall in Hall. exact (Hall t Hin msg Ht).
Qed.

End Flags.

(** ** Compiling a method *)

Section CompileContract.
Context `{FL : Platform} `{BE : Backend}.

(** C7: a compile call invokes the backend once, for the optimizing tier
    ([baseline] is false), handing it the code cache of the runtime and the
    diagnostics log; the arena trim follows in the same call whatever the
    backend answered; the timings of both phases go to the timing
    aggregator of the runtime; and the call returns what the backend
    answered.  The call is made within its contract: no exception is
    pending, and (checked in a debug build only) the method is no proxy
    method and its declaring class is resolved. *)
Theorem compile_method_contract
    (jc : JitCompiler) (w : JitWorld) (self : Thread) (method : ArtMethod)
    (osr : bool) (driver : CompilerDriver) :
  compiler_driver_ jc = Some driver ->
  IsExceptionPending self = false ->
  kIsDebugBuild = false \/
    (IsProxyMethod method = false /\
     DeclaringClassIsResolved method = true) ->
  exists w' logger,
    let call := JitCompile (backend_state w) self (jit_code_cache w) method
                           false osr (jit_logger_ jc) in
    let trim := TrimMaps (jit_arena_pool w) in
    let t0 := thread_cpu_time w in
    let t1 := t0 + snd call in
    let t2 := t1 + snd trim in
    CompileMethod jc w self method osr = Returns (fst (fst call), w') /\
    history w' =
      history w ++
      [CallJitCompile self (jit_code_cache w) method false osr (jit_logger_ jc);
       CallTrimMaps;
       CallAddTimingLogger logger] /\
    backend_state w' = snd (fst call) /\
    jit_arena_pool w' = fst trim /\
    cumulative_timings w' = cumulative_timings w ++ [logger] /\
    logger_name_ logger = "JIT compiler timing logger" /\
    kind_ logger = kThreadCpu /\
    timings_ logger =
      [{| timing_time := t0; timing_name := Some "Compiling" |};
       {| timing_time := t1; timing_name := None |};
       {| timing_time := t1; timing_name := Some "TrimMaps" |};
       {| timing_time := t2; timing_name := None |}].
Proof.
  intros Hdriver Hexc Hpre.
  assert (Hchecks :
            kIsDebugBuild && negb (negb (IsProxyMethod method)) = false /\
            kIsDebugBuild && negb (DeclaringClassIsResolved method) = false).
  { destruct Hpre as [->|(-> & ->)]; [now split|].
    now rewrite !andb_false_r. }
  destruct Hchecks as (H1 & H2).
  unfold CompileMethod, DCHECK, AssertNoPendingException.
  rewrite H1, H2, Hexc, Hdriver. cbn [bind].
  destruct (JitCompile (backend_state w) self (jit_code_cache w) method
                       false osr (jit_logger_ jc))
    as [[success backend'] elapsed].
  destruct (TrimMaps (jit_arena_pool w)) as [pool' trim_elapsed].
  eexists; eexists. cbn [fst snd].
  split; [reflexivity|]. cbn.
  rewrite <- !app_assoc. repeat split; reflexivity.
Qed.

End CompileContract.

(** ** Deduplication *)

Module StorageFacts.
Import Storage.

Lemma find_skips (n id : nat) (es tl : list Entry) :
  Forall (fun e => entry_id e < n) es ->
  n <= id ->
  find (fun e => Nat.eqb (entry_id e) id) (es ++ tl) =
  find (fun e => Nat.eqb (entry_id e) id) tl.
Proof.
  intros Hes Hid. induction Hes as [|e es He _ IH]; simpl; [reflexivity|].
  destruct (Nat.eqb_spec (entry_id e) id); [lia|exact IH].
Qed.

Lemma release_skips (n id : nat) (es tl : list Entry) :
  Forall (fun e => entry_id e < n) es ->
  n <= id ->
  release_in id (es ++ tl) = es ++ release_in id tl.
Proof.
  intros Hes Hid. induction Hes as [|e es He _ IH]; simpl; [reflexivity|].
  destruct (Nat.eqb_spec (entry_id e) id); [lia|now rewrite IH].
Qed.

Lemma allocate_well_formed (s : t) (code : list nat) :
  well_formed s -> well_formed (snd (allocate s code)).
Proof.
  unfold well_formed, allocate. simpl. intros H.
  apply Forall_app. split.
  - eapply Forall_impl; [|exact H]. simpl. intros; lia.
  - constructor; [simpl; lia|constructor].
Qed.

(** Without deduplication two artifacts with the same bytes get two
    entries, and each can be released without touching the other. *)
Lemma independent_entries (s : t) (code : list nat) :
  well_formed s ->
  let r1 := store false s code in
  let r2 := store false (snd r1) code in
  fst r1 <> fst r2 /\
  lookup (fst r1) (snd r2) = Some code /\
  lookup (fst r2) (snd r2) = Some code /\
  lookup (fst r1) (release (fst r1) (snd r2)) = None /\
  lookup (fst r2) (release (fst r1) (snd r2)) = Some code /\
  lookup (fst r2) (release (fst r2) (snd r2)) = None /\
  lookup (fst r1) (release (fst r2) (snd r2)) = Some code.
Proof.
  intros Hwf. unfold well_formed in Hwf. set (n := next_id s) in *.
  unfold store, allocate, lookup, release. cbn [fst snd next_id entries].
  fold n. rewrite <- !app_assoc. cbn [app].
  assert (Hn : n <= n) by lia. assert (HSn : n <= S n) by lia.
  rewrite !(release_skips n n _ _ Hwf Hn), !(release_skips n (S n) _ _ Hwf HSn).
  rewrite !(find_skips n n _ _ Hwf Hn), !(find_skips n (S n) _ _ Hwf HSn).
  cbn [release_in find entry_id entry_owners entry_code option_map].
  rewrite !Nat.eqb_refl.
  assert (E1 : Nat.eqb (S n) n = false) by (apply Nat.eqb_neq; lia).
  assert (E2 : Nat.eqb n (S n) = false) by (apply Nat.eqb_neq; lia).
  rewrite ?E1, ?E2. cbn [release_in find entry_id entry_owners entry_code option_map].
  rewrite ?Nat.eqb_refl, ?E1, ?E2.
  repeat split; try reflexivity. lia.
Qed.

(** With deduplication the second artifact shares the entry of the first,
    and one release is not enough to remove it. *)
Example shared_entry :
  let r1 := store true empty [1; 2; 3] in
  let r2 := store true (snd r1) [1; 2; 3] in
  fst r1 = fst r2 /\
  lookup (fst r2) (release (fst r1) (snd r2)) = Some [1; 2; 3] /\
  length (entries (snd r2)) = 1.
Proof. repeat split. Qed.

End StorageFacts.

Section Creation.
Context `{FL : Platform} `{CO : !Collaborators}.

(** C8: the object [create] returns holds a backend binding whose
    deduplication is switched off; under that setting two methods whose
    code is byte for byte the same occupy two entries of the storage, and
    either can be evicted while the other stays. *)
Theorem create_disables_deduplication
    (runtime : Runtime) (jc : JitCompiler) (log : list string) :
  JitCompiler_new runtime = Returns (jc, log) ->
  exists driver,
    compiler_driver_ jc = Some driver /\
    dedupe_enabled_ driver = false /\
    forall (s : Storage.t) (code : list nat),
      Storage.well_formed s ->
      let r1 := Storage.store (dedupe_enabled_ driver) s code in
      let r2 := Storage.store (dedupe_enabled_ driver) (snd r1) code in
      fst r1 <> fst r2 /\
      Storage.lookup (fst r1) (snd r2) = Some code /\
      Storage.lookup (fst r2) (snd r2) = Some code /\
      Storage.lookup (fst r1) (Storage.release (fst r1) (snd r2)) = None /\
      Storage.lookup (fst r2) (Storage.release (fst r1) (snd r2)) = Some code /\
      Storage.lookup (fst r2) (Storage.release (fst r2) (snd r2)) = None /\
      Storage.lookup (fst r1) (Storage.release (fst r2) (snd r2)) = Some code.
Proof.
  intros H. apply JitCompiler_new_returns in H as (jc1 & _ & _ & Hd & _).
  eexists. split; [exact Hd|]. split; [reflexivity|].
  intros s code Hwf. cbn [SetDedupeEnabled dedupe_enabled_].
  apply (StorageFacts.independent_entries s code Hwf).
Qed.

End Creation.

(** * The sample host at work *)

Module OnSampleHost.
Import SampleHost.

Import SampleRuns.

#[local] Existing Instance arm64.
#[local] Existing Instance arm64_collaborators.
#[local] Existing Instance sample_backend.

(** *** C1 *)

Lemma malformed_token_discards_earlier_features_witness :
  (exists e, In (parse_warning (features_token "bogus") e)
                (snd (run runtime_c1 fresh_object))) /\
  exists f_post log_post,
    scan_options kArm64 [features_token "crc"] (None, []) =
      Returns (f_post, log_post) /\
    resolved_features (run runtime_c1 fresh_object) =
      Some (features_or_cpp_defines f_post).
Proof.
  apply (@malformed_token_discards_earlier_features arm64 arm64_collaborators
           runtime_c1 fresh_object (fst (run runtime_c1 fresh_object))
           (snd (run runtime_c1 fresh_object))
           (parsed runtime_c1 fresh_object)
           [variant_token "cortex-a53"] [features_token "crc"]
           (features_token "bogus") (Some cortex_a53) []);
    reflexivity.
Defined.

(** The claim as worded fails here: the variant token is accepted, the
    features token after it is malformed, and the run ends with the
    host-detected capabilities, not with the accepted cortex-a53 baseline. *)
Lemma earlier_contribution_lost :
  scan_options kArm64 [variant_token "cortex-a53"] (None, []) =
    Returns (Some cortex_a53, []) /\
  malformed_token kArm64 (Some cortex_a53) (features_token "bogus") = true /\
  outcome_map resolved_features
    (jit_load (runtime_with [variant_token "cortex-a53"; features_token "bogus"]
                            false))
    = Returns (Some cpp_defines) /\
  Some cpp_defines <> Some cortex_a53.
Proof. repeat split; try reflexivity. discriminate. Qed.

(** *** C2 *)

Lemma malformed_variant_then_features_witness :
  exists jc' log,
    ParseCompilerOptions runtime_c2 fresh_object = Returns (jc', log) /\
    resolved_features (jc', log) =
      Some {| baseline := "default"; overlay := ["crc"] |}.
Proof.
  apply (@malformed_variant_then_features arm64 arm64_collaborators
           runtime_c2 fresh_object (parsed runtime_c2 fresh_object)
           ["--debuggable"] ["-Xunknown"] ["--compile-pic"] "bogus" "crc"
           "Unexpected CPU variant for Arm64: bogus"
           {| baseline := "default"; overlay := [] |}
           {| baseline := "default"; overlay := ["crc"] |});
    evaluate.
Defined.

(** The claim as worded fails on lists that go on after the pair: a
    malformed variant token, then an accepted features token, then an
    accepted variant token ends with that variant alone; and with a
    malformed features token at the end instead, with the host-detected
    capabilities. *)
Lemma later_tokens_undo_the_salvage :
  FromVariant kArm64 "bogus" = Err "Unexpected CPU variant for Arm64: bogus" /\
  overlay_all {| baseline := "default"; overlay := [] |} ["crc"] =
    Ok {| baseline := "default"; overlay := ["crc"] |} /\
  outcome_map resolved_features
    (jit_load (runtime_with [variant_token "bogus"; features_token "crc";
                             variant_token "kryo"] false))
    = Returns (Some {| baseline := "kryo"; overlay := [] |}) /\
  outcome_map resolved_features
    (jit_load (runtime_with [variant_token "bogus"; features_token "crc";
                             features_token "nope"] false))
    = Returns (Some cpp_defines) /\
  Some {| baseline := "kryo"; overlay := [] |} <>
    Some {| baseline := "default"; overlay := ["crc"] |} /\
  Some cpp_defines <> Some {| baseline := "default"; overlay := ["crc"] |}.
Proof. repeat split; try reflexivity; discriminate. Qed.

(** *** C3 *)

Lemma feature_set_shapes_witness :
  (exists jc' log,
     ParseCompilerOptions
       (runtime_with ["-Xfoo"; features_token "lse"] false) fresh_object
       = Returns (jc', log) /\
     resolved_features (jc', log) =
       Some {| baseline := "default"; overlay := ["lse"] |}) /\
  (exists jc' log,
     ParseCompilerOptions
       (runtime_with [variant_token "kryo"; features_token "-a53"] false)
       fresh_object = Returns (jc', log) /\
     resolved_features (jc', log) =
       Some {| baseline := "kryo"; overlay := ["-a53"] |}) /\
  (exists jc' log,
     ParseCompilerOptions (runtime_with ["--debuggable"] false) fresh_object
       = Returns (jc', log) /\
     resolved_features (jc', log) = Some cpp_defines).
Proof.
  destruct (@feature_set_shapes arm64 arm64_collaborators fresh_object) as (H1 & H2 & H3).
  split; [|split].
  - apply (H1 (runtime_with ["-Xfoo"; features_token "lse"] false)
              (parsed (runtime_with ["-Xfoo"; features_token "lse"] false)
                      fresh_object)
              ["-Xfoo"] [] "lse" {| baseline := "default"; overlay := [] |});
      evaluate.
  - apply (H2 (runtime_with [variant_token "kryo"; features_token "-a53"] false)
              (parsed (runtime_with [variant_token "kryo"; features_token "-a53"]
                                    false) fresh_object)
              [] [] [] "kryo" "-a53" {| baseline := "kryo"; overlay := [] |});
      evaluate.
  - apply (H3 (runtime_with ["--debuggable"] false)
              (parsed (runtime_with ["--debuggable"] false) fresh_object));
      evaluate.
Defined.

(** *** C4 *)

(** C4: the failing input.  An object is created on a debuggable host with
    no token about the flag, and its options are updated with no token
    about the flag once the host is no longer debuggable.  The options do
    not provide the flag, so it is to be the live state of the host, false;
    the guard sees the true left by the first resolution and keeps it. *)
Lemma stale_debuggable_survives_update :
  explicit_debuggable (GetCompilerOptions runtime_c4) = None /\
  explicit_debuggable (GetCompilerOptions runtime_c4_later) = None /\
  IsJavaDebuggable runtime_c4_later = false /\
  outcome_map (fun r => debuggable_ (compiler_options_ (fst r)))
    (r <- jit_load runtime_c4 ;;
     jit_update_options runtime_c4_later (Some (fst r)))
    = Returns true /\
  debuggable_as_claimed (explicit_debuggable (GetCompilerOptions runtime_c4_later))
                        (IsJavaDebuggable runtime_c4_later) = false.
Proof. repeat split; reflexivity. Qed.

(** *** C5 *)

Lemma position_independent_code_always_off_witness :
  compile_pic_ (parsed runtime_c5 fresh_object) = true /\
  compile_pic_
    (compiler_options_
       (fst (returned (fresh_object, []) (run_resolver runtime_c5 AtCreation))))
    = false.
Proof.
  split; [reflexivity|].
  apply (@position_independent_code_always_off arm64 arm64_collaborators
           runtime_c5 AtCreation
           (fst (returned (fresh_object, []) (run_resolver runtime_c5 AtCreation)))
           (snd (returned (fresh_object, []) (run_resolver runtime_c5 AtCreation)))).
  reflexivity.
Defined.

(** *** C6, on a 32-bit ARM host *)

Lemma sample_classify_keeps_instruction_set (isa : InstructionSet)
    (debug_build : bool) (t : string)
    (update : @CompilerOptions (platform isa debug_build)
              -> @CompilerOptions (platform isa debug_build))
    (o : @CompilerOptions (platform isa debug_build)) :
  classify isa debug_build t = Recognized update ->
  instruction_set_ (update o) = instruction_set_ o.
Proof.
  unfold classify.
  repeat (match goal with
          | |- context [if ?c then _ else _] => destruct c
          end);
    intros E; try discriminate E; injection E as <-; reflexivity.
Qed.

Lemma resolution_completes_with_host_instruction_set_witness :
  exists jc' log,
    @ParseCompilerOptions (platform kArm true) (collaborators kArm true)
      runtime_c6 (@fresh_object (platform kArm true) (collaborators kArm true))
      = Returns (jc', log) /\
    instruction_set_ (compiler_options_ jc') = kThumb2.
Proof.
  destruct (@resolution_completes_with_host_instruction_set
              (platform kArm true) (collaborators kArm true)
              runtime_c6
              (@fresh_object (platform kArm true) (collaborators kArm true))
              (@parsed_on kArm runtime_c6))
    as (_ & _ & Hset & Hdone).
  - intros o tokens o'.
    apply (@structured_parse_keeps_instruction_set (platform kArm true)
             (classify kArm true)
             (sample_classify_keeps_instruction_set kArm true)).
  - reflexivity.
  - reflexivity.
  - destruct (Hdone {| baseline := "default"; overlay := [] |} eq_refl)
      as (jc' & log & Hrun).
    exists jc', log. split; [exact Hrun|].
    exact (proj1 (proj2 (Hset jc' log Hrun)) eq_refl).
Defined.

(** *** C7 *)

Lemma compile_method_contract_witness :
  exists w' logger,
    CompileMethod created world worker method_foo false = Returns (true, w') /\
    history w' =
      [CallJitCompile worker 4096 method_foo false false None;
       CallTrimMaps;
       CallAddTimingLogger logger] /\
    backend_state w' = 1 /\
    jit_arena_pool w' = 1 /\
    cumulative_timings w' = [logger] /\
    logger_name_ logger = "JIT compiler timing logger" /\
    kind_ logger = kThreadCpu /\
    timings_ logger =
      [{| timing_time := 1000; timing_name := Some "Compiling" |};
       {| timing_time := 1040; timing_name := None |};
       {| timing_time := 1040; timing_name := Some "TrimMaps" |};
       {| timing_time := 1042; timing_name := None |}].
Proof.
  apply (@compile_method_contract arm64 sample_backend
           created world worker method_foo false
           {| compiler_kind_ := kOptimizing; thread_count_ := 1;
              swap_fd_ := (-1)%Z; dedupe_enabled_ := false |}).
  - reflexivity.
  - reflexivity.
  - right. split; reflexivity.
Defined.

(** When the backend fails the trim and the timings are still there. *)
Example failed_compile_still_trims :
  outcome_map
    (fun r => (fst r, jit_arena_pool (snd r),
               length (cumulative_timings (snd r))))
    (CompileMethod created world worker method_native true)
  = Returns (false, 1, 1).
Proof. reflexivity. Qed.

(** *** C8 *)

Lemma create_disables_deduplication_witness :
  exists driver,
    compiler_driver_ created = Some driver /\
    dedupe_enabled_ driver = false /\
    forall (s : Storage.t) (code : list nat),
      Storage.well_formed s ->
      let r1 := Storage.store (dedupe_enabled_ driver) s code in
      let r2 := Storage.store (dedupe_enabled_ driver) (snd r1) code in
      fst r1 <> fst r2 /\
      Storage.lookup (fst r1) (snd r2) = Some code /\
      Storage.lookup (fst r2) (snd r2) = Some code /\
      Storage.lookup (fst r1) (Storage.release (fst r1) (snd r2)) = None /\
      Storage.lookup (fst r2) (Storage.release (fst r1) (snd r2)) = Some code /\
      Storage.lookup (fst r2) (Storage.release (fst r2) (snd r2)) = None /\
      Storage.lookup (fst r1) (Storage.release (fst r2) (snd r2)) = Some code.
Proof.
  apply (@create_disables_deduplication arm64 arm64_collaborators (runtime_with [] true) created []).
  reflexivity.
Defined.

(** *** C9 *)

Lemma unrecognized_tokens_never_fatal_witness :
  (forall msg,
     ParseCompilerOptions runtime_c9 fresh_object = FatalAbort msg <->
     structured_parse (classify kArm64 true) (parser_input fresh_object)
                      (GetCompilerOptions runtime_c9) true = Err msg) /\
  (forall msg,
     ParseCompilerOptions runtime_c9 fresh_object = FatalAbort msg ->
     exists t, In t (GetCompilerOptions runtime_c9) /\
               classify kArm64 true t = Malformed msg) /\
  (Forall (fun t => forall e, classify kArm64 true t <> Malformed e)
          (GetCompilerOptions runtime_c9) ->
   forall msg, ParseCompilerOptions runtime_c9 fresh_object <> FatalAbort msg).
Proof.
  apply (@unrecognized_tokens_never_fatal arm64 arm64_collaborators
           (classify kArm64 true) runtime_c9 fresh_object).
  intros o tokens ignore_unrecognized. reflexivity.
Defined.

(** An unrecognized token on its own: the run completes. *)
Example unknown_token_alone_completes :
  outcome_map (fun r => snd r)
    (ParseCompilerOptions (runtime_with ["-Xunknown"] false) fresh_object)
  = Returns [].
Proof. reflexivity. Qed.

(** *** C10 *)

Lemma features_never_null_witness :
  resolved_features (run runtime_c10 fresh_object) = Some cpp_defines /\
  exists o1 f_scan,
    baseline_parse runtime_c10 fresh_object = Ok o1 /\
    scan_options (instruction_set_ o1) (GetCompilerOptions runtime_c10)
                 (None, []) = Returns (f_scan, snd (run runtime_c10 fresh_object)) /\
    resolved_features (run runtime_c10 fresh_object) =
      Some (match f_scan with Some f => f | None => FromCppDefines end) /\
    (f_scan = None ->
     resolved_features (run runtime_c10 fresh_object) = Some FromCppDefines) /\
    (forall pre t post f_pre log_pre,
       GetCompilerOptions runtime_c10 = pre ++ t :: post ->
       scan_options (instruction_set_ o1) pre (None, [])
         = Returns (f_pre, log_pre) ->
       malformed_token (instruction_set_ o1) f_pre t = true ->
       Forall (fun t => relevant t = false) post ->
       resolved_features (run runtime_c10 fresh_object) = Some FromCppDefines).
Proof.
  split; [reflexivity|].
  apply (@features_never_null arm64 arm64_collaborators
           runtime_c10 fresh_object (fst (run runtime_c10 fresh_object))
           (snd (run runtime_c10 fresh_object))).
  reflexivity.
Defined.

End OnSampleHost.

(** * Further properties of the resolver *)

Section MoreScanFacts.
Context `{FL : Platform}.
Variable isa : InstructionSet.

Lemma scanned_features_any_log (l : list string)
    (f : option InstructionSetFeatures) (log : list string) :
  outcome_map fst (scan_options isa l (f, log)) = scanned_features isa l f.
Proof.
  unfold scanned_features. rewrite (scan_options_log isa l f log).
  destruct (scan_options isa l (f, [])) as [[f' lg]| | |]; reflexivity.
Qed.

Lemma from_data_stops_at_nul (v junk : string) :
  nul_free v = true -> from_data (v ++ String Ascii.zero junk) = v.
Proof.
  induction v as [|c v IH]; simpl; [reflexivity|].
  destruct (Ascii.eqb c zero); simpl; [clash|].
  intros E. now rewrite IH.
Qed.



(** A token with the variant prefix does not look at the feature set it
    finds. *)
Lemma scan_option_variant_forgets (t : string)
    (f1 f2 : option InstructionSetFeatures) (log1 log2 : list string)
    (rest : list string) :
  starts_with t variant_prefix = true ->
  outcome_map fst (st <- scan_option isa (f1, log1) t ;;
                   scan_options isa rest st) =
  outcome_map fst (st <- scan_option isa (f2, log2) t ;;
                   scan_options isa rest st).
Proof.
  intros Hv. unfold scan_option. rewrite Hv.
  destruct (FromVariant isa _) as [g|e]; cbn [bind];
    now rewrite !scanned_features_any_log.
Qed.

(** X1: a token with the variant prefix, accepted or not, replaces whatever
    the earlier tokens had built: the feature set the scan ends with is the
    one the scan of the tokens from that token on ends with. *)
Theorem variant_token_replaces_earlier_features
    (pre post : list string) (t : string)
    (f_pre : option InstructionSetFeatures) (log_pre : list string) :
  scan_options isa pre (None, []) = Returns (f_pre, log_pre) ->
  starts_with t variant_prefix = true ->
  scanned_features isa (pre ++ t :: post) None =
  scanned_features isa (t :: post) None.
Proof.
  intros Hpre Hv. unfold scanned_features.
  rewrite scan_options_app, Hpre. cbn [bind scan_options].
  apply (scan_option_variant_forgets t f_pre None log_pre [] post Hv).
Qed.

Lemma overlay_on_baseline (xs : list string) (b f' : InstructionSetFeatures)
    (log : list string) :
  Forall (fun x => nul_free x = true) xs ->
  overlay_all b xs = Ok f' ->
  scan_options isa (map features_token xs) (Some b, log) = Returns (Some f', log).
Proof.
  intros Hxs. revert b. induction Hxs as [|x xs Hx _ IH]; intros b; simpl.
  - intros H. now injection H as <-.
  - destruct (AddFeaturesFromString b x) as [b1|e] eqn:Hadd; [|clash].
    intros Hrest.
    change (bind (scan_option isa (Some b, log) (features_token x))
                 (fun st' => scan_options isa (map features_token xs) st')
            = Returns (Some f', log)).
    rewrite (scan_features_token isa (Some b) log x b b1 Hx eq_refl Hadd).
    cbn [bind]. now apply IH.
Qed.

(** X2: features tokens accumulate: a run of accepted features tokens ends
    with the baseline in hand (the "default" one when there is none)
    overlaid with each token's features in turn, and logs nothing. *)
Theorem features_tokens_accumulate
    (x : string) (xs : list string) (f : option InstructionSetFeatures)
    (b f' : InstructionSetFeatures) (log : list string) :
  Forall (fun x => nul_free x = true) (x :: xs) ->
  baseline_for isa f = Ok b ->
  overlay_all b (x :: xs) = Ok f' ->
  scan_options isa (map features_token (x :: xs)) (f, log) =
    Returns (Some f', log).
Proof.
  intros Hall Hb. inversion Hall as [|? ? Hx Hxs]; subst. simpl.
  destruct (AddFeaturesFromString b x) as [b1|e] eqn:Hadd; [|clash].
  intros Hrest.
  change (bind (scan_option isa (f, log) (features_token x))
               (fun st' => scan_options isa (map features_token xs) st')
          = Returns (Some f', log)).
  rewrite (scan_features_token isa f log x b b1 Hx Hb Hadd). cbn [bind].
  now apply overlay_on_baseline.
Qed.

(** X4: the value of a variant or features token is read up to its first
    NUL character: what follows the NUL has no influence on the feature set. *)
Theorem token_value_stops_at_nul
    (v junk : string) (st : ScanState) :
  nul_free v = true ->
  outcome_map fst
    (scan_option isa st (variant_token (v ++ String Ascii.zero junk))) =
  outcome_map fst (scan_option isa st (variant_token v)) /\
  outcome_map fst
    (scan_option isa st (features_token (v ++ String Ascii.zero junk))) =
  outcome_map fst (scan_option isa st (features_token v)).
Proof.
  intros Hv. destruct st as [f log]. unfold scan_option. split.
  - rewrite !variant_token_starts, !variant_token_value.
    rewrite (from_data_stops_at_nul v junk Hv), (from_data_nul_free v Hv).
    destruct (FromVariant isa v); reflexivity.
  - rewrite !features_token_not_variant, !features_token_starts,
            !features_token_value.
    rewrite (from_data_stops_at_nul v junk Hv), (from_data_nul_free v Hv).
    destruct f as [f0|].
    + destruct (AddFeaturesFromString f0 v); reflexivity.
    + destruct (FromVariant isa "default") as [b|e0]; [|reflexivity].
      destruct (AddFeaturesFromString b v); reflexivity.
Qed.

(** The scan reaches the empty pointer only at a features token, and only
    when the "default" variant is rejected. *)
Lemma scan_options_null_dereference (l : list string) (st : ScanState) :
  scan_options isa l st = NullDereference ->
  (exists e, FromVariant isa "default" = Err e) /\
  exists t, In t l /\ starts_with t variant_prefix = false /\
            starts_with t features_prefix = true.
Proof.
  revert st. induction l as [|t l IH]; intros st; cbn [scan_options]; [clash|].
  destruct (scan_option isa st t) as [st1| | |] eqn:Hstep; cbn [bind];
    try clash.
  - intros H. destruct (IH _ H) as (Hd & t' & Hin & Ht').
    split; [exact Hd|]. exists t'. split; [now right|exact Ht'].
  - intros _. revert Hstep. destruct st as [f log]. unfold scan_option.
    destruct (starts_with t variant_prefix) eqn:Ev.
    + destruct (FromVariant isa (from_data _)); clash.
    + destruct (starts_with t features_prefix) eqn:Ef; [|clash].
      destruct f as [f0|].
      * destruct (AddFeaturesFromString f0 _); clash.
      * destruct (FromVariant isa "default") as [b|e0] eqn:Hd.
        -- destruct (AddFeaturesFromString b _); clash.
        -- intros _. split; [now exists e0|].
           exists t. repeat split; auto. now left.
Qed.

End MoreScanFacts.

Section MoreResolverFacts.
Context `{FL : Platform} `{CO : !Collaborators}.


(** X5: an update does not build on the feature set the object holds: the
    resolved feature set, the warnings and the core-image flag of a run
    depend on the runtime and on the instruction set of the options only. *)
Theorem resolution_forgets_previous_features
    (runtime : Runtime) (jc1 jc2 : JitCompiler) (o1 o2 : CompilerOptions)
    (r1 r2 : JitCompiler * list string) :
  baseline_parse runtime jc1 = Ok o1 ->
  baseline_parse runtime jc2 = Ok o2 ->
  instruction_set_ o1 = instruction_set_ o2 ->
  ParseCompilerOptions runtime jc1 = Returns r1 ->
  ParseCompilerOptions runtime jc2 = Returns r2 ->
  resolved_features r1 = resolved_features r2 /\
  snd r1 = snd r2 /\
  compiling_with_core_image_ (compiler_options_ (fst r1)) =
  compiling_with_core_image_ (compiler_options_ (fst r2)).
Proof.
  intros Hp1 Hp2 Hisa H1 H2.
  destruct r1 as [jc1' log1], r2 as [jc2' log2].
  apply ParseCompilerOptions_returns in H1 as (o1' & f1 & Hp1' & _ & Hs1 & ->).
  apply ParseCompilerOptions_returns in H2 as (o2' & f2 & Hp2' & _ & Hs2 & ->).
  rewrite Hp1 in Hp1'. injection Hp1' as <-.
  rewrite Hp2 in Hp2'. injection Hp2' as <-.
  rewrite Hisa, Hs2 in Hs1. injection Hs1 as <- <-.
  repeat split.
Qed.

(** X6: the assertion on the instruction set fails exactly in a debug build
    whose parsed options hold another instruction set than the host's
    (Thumb2 for 32-bit ARM); a release build never fails it. *)
Theorem assertion_fails_exactly_on_wrong_instruction_set
    (runtime : Runtime) (jc : JitCompiler) :
  (exists what, ParseCompilerOptions runtime jc = CheckFailure what) <->
  (exists o1,
     baseline_parse runtime jc = Ok o1 /\
     kIsDebugBuild = true /\
     instruction_set_ o1 <> expected_instruction_set).
Proof.
  destruct (baseline_parse runtime jc) as [o1|e] eqn:Hp.
  - rewrite (ParseCompilerOptions_after_parse runtime jc o1 Hp).
    unfold DCHECK_EQ.
    destruct kIsDebugBuild; cbn [andb].
    + destruct (InstructionSet_eqb (instruction_set_ o1)
                                   expected_instruction_set) eqn:E;
        cbn [negb bind].
      * apply InstructionSet_eqb_eq in E. split.
        -- intros [what H]. exfalso. revert H.
           destruct (scan_options_ends (instruction_set_ o1)
                       (GetCompilerOptions runtime) (None, []))
             as [[st ->]| ->]; simpl; clash.
        -- intros (o & Ho & _ & Hne). injection Ho as <-. contradiction.
      * split.
        -- intros _. exists o1. repeat split; auto.
           intros Heq. apply InstructionSet_eqb_eq in Heq. congruence.
        -- intros _. eexists; reflexivity.
    + cbn [bind]. split.
      * intros [what H]. exfalso. revert H.
        destruct (scan_options_ends (instruction_set_ o1)
                    (GetCompilerOptions runtime) (None, []))
          as [[st ->]| ->]; simpl; clash.
      * intros (o & _ & Hd & _). discriminate Hd.
  - apply ParseCompilerOptions_fatal in Hp. rewrite Hp. split.
    + intros [what H]. discriminate H.
    + intros (o & Ho & _). discriminate Ho.
Qed.

(** X7: resolution dereferences the empty feature pointer only when the
    feature library rejects the "default" variant and the runtime's list
    holds a features token. *)
Theorem null_dereference_needs_rejected_default
    (runtime : Runtime) (jc : JitCompiler) :
  ParseCompilerOptions runtime jc = NullDereference ->
  exists o1,
    baseline_parse runtime jc = Ok o1 /\
    (exists e, FromVariant (instruction_set_ o1) "default" = Err e) /\
    exists t, In t (GetCompilerOptions runtime) /\
              starts_with t variant_prefix = false /\
              starts_with t features_prefix = true.
Proof.
  destruct (baseline_parse runtime jc) as [o1|e] eqn:Hp.
  - rewrite (ParseCompilerOptions_after_parse runtime jc o1 Hp).
    unfold DCHECK_EQ. destruct (kIsDebugBuild && _); cbn [bind]; [clash|].
    destruct (scan_options (instruction_set_ o1) (GetCompilerOptions runtime)
                           (None, [])) as [st| | |] eqn:Hscan;
      cbn [bind]; try clash.
    intros _. exists o1. split; [reflexivity|].
    apply (scan_options_null_dereference _ _ _ Hscan).
  - apply ParseCompilerOptions_fatal in Hp. rewrite Hp. clash.
Qed.

(** X8: the inline budget is put back to its default before the structured
    parse, so the budget a completed run holds is the one the parse left,
    and when the tokens of the run say nothing about it, the default,
    whatever budget the object held before. *)
Theorem inline_budget_reset_before_parse
    (runtime : Runtime) (jc jc' : JitCompiler) (log : list string)
    (o1 : CompilerOptions) :
  baseline_parse runtime jc = Ok o1 ->
  ParseCompilerOptions runtime jc = Returns (jc', log) ->
  inline_max_code_units_ (compiler_options_ jc') = inline_max_code_units_ o1 /\
  ((forall o o',
      CompilerOptions_ParseCompilerOptions o (GetCompilerOptions runtime) true
        = Ok o' ->
      inline_max_code_units_ o' = inline_max_code_units_ o) ->
   inline_max_code_units_ (compiler_options_ jc') = kDefaultInlineMaxCodeUnits).
Proof.
  intros Hp H.
  apply ParseCompilerOptions_returns in H as (o1' & f & Hp' & _ & _ & ->).
  rewrite Hp in Hp'. injection Hp' as <-. split; [reflexivity|].
  intros Hkeep. simpl. unfold baseline_parse in Hp.
  now rewrite (Hkeep _ _ Hp).
Qed.

(** X9: a variant token the library accepts, with no variant or features
    token after it, decides the feature set alone: the run holds exactly
    that variant's features, whatever the earlier tokens had built. *)
Theorem last_variant_token_decides
    (runtime : Runtime) (jc : JitCompiler) (o1 : CompilerOptions)
    (pre post : list string) (v : string)
    (f_pre : option InstructionSetFeatures) (log_pre : list string)
    (b : InstructionSetFeatures) :
  GetCompilerOptions runtime = pre ++ variant_token v :: post ->
  Forall (fun t => relevant t = false) post ->
  nul_free v = true ->
  baseline_parse runtime jc = Ok o1 ->
  instruction_set_checked o1 ->
  scan_options (instruction_set_ o1) pre (None, []) = Returns (f_pre, log_pre) ->
  FromVariant (instruction_set_ o1) v = Ok b ->
  exists jc',
    ParseCompilerOptions runtime jc = Returns (jc', log_pre) /\
    resolved_features (jc', log_pre) = Some b.
Proof.
  intros Htok Hpost Hv Hp Hc Hpre Hb.
  exists (resolved runtime jc o1 (Some b)). split; [|reflexivity].
  apply (ParseCompilerOptions_completes runtime jc o1 (Some b) log_pre Hp Hc).
  rewrite Htok, scan_options_app, Hpre. cbn [bind scan_options].
  rewrite (scan_variant_token _ f_pre log_pre v Hv), Hb. cbn [bind].
  apply (scan_options_irrelevant _ post _ Hpost).
Qed.

(** X10: after a completed run the debug-info query answers with the flag
    the structured parse left; when it is on, a freshly opened diagnostics
    log is held, and when it is off the log the object had is left as it
    was. *)
Theorem debug_info_query_reflects_parse
    (runtime : Runtime) (jc jc' : JitCompiler) (log : list string)
    (o1 : CompilerOptions) :
  baseline_parse runtime jc = Ok o1 ->
  ParseCompilerOptions runtime jc = Returns (jc', log) ->
  jit_generate_debug_info (Some jc') = Returns (generate_debug_info_ o1) /\
  (generate_debug_info_ o1 = true ->
   jit_logger_ jc' = Some {| log_is_open := true |}) /\
  (generate_debug_info_ o1 = false -> jit_logger_ jc' = jit_logger_ jc).
Proof.
  intros Hp H.
  apply ParseCompilerOptions_returns in H as (o1' & f & Hp' & _ & _ & ->).
  rewrite Hp in Hp'. injection Hp' as <-.
  split; [reflexivity|]. simpl. split; intros ->; reflexivity.
Qed.

End MoreResolverFacts.

(** * The life of a facade object *)

Section SessionFacts.
Context `{FL : Platform} `{CO : !Collaborators}.

Lemma ParseCompilerOptions_well_configured (runtime : Runtime)
    (jc jc' : JitCompiler) (log : list string) :
  (exists driver,
     compiler_driver_ jc = Some driver /\ dedupe_enabled_ driver = false) ->
  ParseCompilerOptions runtime jc = Returns (jc', log) ->
  well_configured jc'.
Proof.
  intros Hd H.
  apply ParseCompilerOptions_returns in H as (o1 & f & _ & _ & _ & ->).
  unfold well_configured. simpl. repeat split.
  - eexists; reflexivity.
  - exact Hd.
  - now intros ->.
Qed.

Lemma JitCompiler_new_well_configured (runtime : Runtime) (jc : JitCompiler)
    (log : list string) :
  JitCompiler_new runtime = Returns (jc, log) -> well_configured jc.
Proof.
  intros H. apply JitCompiler_new_returns in H as (jc1 & H1 & Ho & Hd & Hl).
  apply ParseCompilerOptions_returns in H1 as (o1 & f & _ & _ & _ & ->).
  unfold well_configured. rewrite Ho, Hd, Hl. simpl. repeat split.
  - eexists; reflexivity.
  - eexists; split; reflexivity.
  - now intros ->.
Qed.

Lemma update_all_well_configured (updates : list Runtime)
    (jc jc' : JitCompiler) :
  well_configured jc ->
  update_all jc updates = Returns jc' ->
  well_configured jc'.
Proof.
  revert jc. induction updates as [|runtime rest IH]; intros jc Hwf; simpl.
  - intros H. now injection H as <-.
  - destruct (ParseCompilerOptions runtime jc) as [[jc1 log]| | |] eqn:Hrun;
      cbn [bind]; try clash.
    apply IH.
    apply (ParseCompilerOptions_well_configured runtime jc jc1 log);
      [apply Hwf|exact Hrun].
Qed.

Lemma session_well_configured (runtime : Runtime) (updates : list Runtime)
    (jc : JitCompiler) :
  session runtime updates = Returns jc -> well_configured jc.
Proof.
  unfold session, jit_load, Create.
  destruct (JitCompiler_new runtime) as [[jc0 log]| | |] eqn:Hnew;
    cbn [bind]; try clash.
  apply update_all_well_configured.
  apply (JitCompiler_new_well_configured runtime jc0 log Hnew).
Qed.


(** X12: unloading an object that was created and updated returns: with
    debug info on the diagnostics log is closed, with debug info off the
    object is released as it is; the options are not touched. *)
Theorem unload_after_session
    (runtime : Runtime) (updates : list Runtime) (jc : JitCompiler) :
  session runtime updates = Returns jc ->
  exists released,
    jit_unload (Some jc) = Returns (Some released) /\
    compiler_options_ released = compiler_options_ jc /\
    compiler_driver_ released = compiler_driver_ jc /\
    (generate_debug_info_ (compiler_options_ jc) = true ->
     jit_logger_ released = Some {| log_is_open := false |}) /\
    (generate_debug_info_ (compiler_options_ jc) = false -> released = jc).
Proof.
  intros H. apply session_well_configured in H as (_ & _ & _ & Hlog).
  unfold jit_unload, JitCompiler_delete, GetGenerateDebugInfo.
  destruct (generate_debug_info_ (compiler_options_ jc)) eqn:Eg.
  - rewrite (Hlog eq_refl). cbn [bind]. eexists. split; [reflexivity|].
    simpl. repeat split; first [reflexivity | clash | intros _; reflexivity].
  - cbn [bind]. exists jc.
    repeat split; first [reflexivity | clash | intros _; reflexivity].
Qed.

End SessionFacts.

(** * Compile requests *)

Section MoreCompileFacts.
Context `{FL : Platform} `{BE : Backend}.

(** A call made within the contract, spelled out. *)
Lemma CompileMethod_returns (jc : JitCompiler) (w : JitWorld) (self : Thread)
    (method : ArtMethod) (osr : bool) (driver : CompilerDriver) :
  compiler_driver_ jc = Some driver ->
  IsExceptionPending self = false ->
  kIsDebugBuild = false \/
    (IsProxyMethod method = false /\
     DeclaringClassIsResolved method = true) ->
  exists w' logger,
    let call := JitCompile (backend_state w) self (jit_code_cache w) method
                           false osr (jit_logger_ jc) in
    CompileMethod jc w self method osr = Returns (fst (fst call), w') /\
    history w' =
      history w ++
      [CallJitCompile self (jit_code_cache w) method false osr (jit_logger_ jc);
       CallTrimMaps;
       CallAddTimingLogger logger] /\
    backend_state w' = snd (fst call) /\
    jit_code_cache w' = jit_code_cache w /\
    cumulative_timings w' = cumulative_timings w ++ [logger] /\
    thread_cpu_time w <= thread_cpu_time w'.
Proof.
  intros Hdriver Hexc Hpre.
  assert (Hchecks :
            kIsDebugBuild && negb (negb (IsProxyMethod method)) = false /\
            kIsDebugBuild && negb (DeclaringClassIsResolved method) = false).
  { destruct Hpre as [->|(-> & ->)]; [now split|].
    now rewrite !andb_false_r. }
  destruct Hchecks as (H1 & H2).
  unfold CompileMethod, DCHECK, AssertNoPendingException.
  rewrite H1, H2, Hexc, Hdriver. cbn [bind].
  destruct (JitCompile (backend_state w) self (jit_code_cache w) method
                       false osr (jit_logger_ jc))
    as [[success backend'] elapsed].
  destruct (TrimMaps (jit_arena_pool w)) as [pool' trim_elapsed].
  eexists; eexists. cbn [fst snd].
  split; [reflexivity|]. cbn.
  rewrite <- !app_assoc. repeat split; try reflexivity. lia.
Qed.



(** X14: requests served one after the other through the entry point, on
    threads with no exception pending and within the checked contract (or
    in a release build), get, in order, the answers the backend alone gives
    to them; each request adds one backend call, one arena trim and one
    timing report, thread CPU time never runs backwards and the code cache
    stays the one of the runtime. *)
Theorem compile_all_serves_in_order
    (jc : JitCompiler) (driver : CompilerDriver)
    (requests : list CompileRequest) (w : JitWorld) :
  compiler_driver_ jc = Some driver ->
  Forall no_pending_exception requests ->
  kIsDebugBuild = false \/ Forall in_contract requests ->
  exists w',
    compile_all jc w requests =
      Returns (backend_answers (backend_state w) (jit_code_cache w)
                               (jit_logger_ jc) requests, w') /\
    length (filter is_compile (history w')) =
      length (filter is_compile (history w)) + length requests /\
    length (filter is_trim (history w')) =
      length (filter is_trim (history w)) + length requests /\
    length (filter is_report (history w')) =
      length (filter is_report (history w)) + length requests /\
    length (cumulative_timings w') =
      length (cumulative_timings w) + length requests /\
    thread_cpu_time w <= thread_cpu_time w' /\
    jit_code_cache w' = jit_code_cache w.
Proof.
  intros Hdriver. revert w.
  induction requests as [|r rest IH]; intros w Hexc Hpre.
  - exists w. simpl. rewrite !Nat.add_0_r. repeat split; auto.
  - assert (Hr : kIsDebugBuild = false \/
                 (IsProxyMethod (request_method r) = false /\
                  DeclaringClassIsResolved (request_method r) = true)).
    { destruct Hpre as [Hrel|Hall]; [now left|right].
      inversion Hall; subst. assumption. }
    assert (Hrest : kIsDebugBuild = false \/ Forall in_contract rest).
    { destruct Hpre as [Hrel|Hall]; [now left|right].
      inversion Hall; subst. assumption. }
    inversion Hexc as [|? ? Hexc_r Hexc_rest]; subst.
    destruct (CompileMethod_returns jc w (request_self r) (request_method r)
                (request_osr r) driver Hdriver Hexc_r Hr)
      as (w1 & logger & Hrun & Hhist & Hback & Hcache & Hcum & Htime).
    cbn zeta in Hrun.
    destruct (IH w1 Hexc_rest Hrest)
      as (w' & Hall' & Hc & Ht & Hp & Hl & Hclock & Hcc).
    exists w'. cbn [compile_all backend_answers jit_compile_method].
    rewrite Hrun. cbn [bind fst snd]. rewrite Hall'. cbn [bind fst snd].
    rewrite Hback, Hcache.
    split; [reflexivity|].
    rewrite Hc, Ht, Hp, Hl, Hhist, Hcum, Hcc, Hcache.
    rewrite !filter_app, !length_app. cbn.
    repeat split; lia.
Qed.

End MoreCompileFacts.

(** * Notifications of loaded types *)

Section TypeFacts.
Context `{FL : Platform} `{DW : !DebugWriter}.

(** X15: notifications delivered to an object register, when debug info is
    on, one entry per notification, in order, behind the entries already
    there, each without a code address and also for an empty batch of
    types; when debug info is off they register nothing.  No entry is ever
    taken back. *)
Theorem notifications_register_in_order
    (current : Thread) (jc : JitCompiler)
    (batches : list (list MirrorClass)) (registered : list DebugInfoEntry) :
  notify_all current (Some jc) batches registered =
  Returns (registered ++
           if generate_debug_info_ (compiler_options_ jc)
           then map (type_entry current jc) batches
           else []).
Proof.
  revert registered. induction batches as [|types rest IH]; intros registered.
  - simpl. destruct (generate_debug_info_ _); now rewrite app_nil_r.
  - cbn [notify_all]. unfold jit_types_loaded, with_handle,
      GetGenerateDebugInfo, GetInstructionSetFeatures, GetInstructionSet.
    destruct (generate_debug_info_ (compiler_options_ jc)) eqn:Eg;
      cbn [bind]; rewrite IH, ?Eg.
    + cbn [map]. now rewrite <- app_assoc.
    + reflexivity.
Qed.

End TypeFacts.

Section NullHandle.
Context `{FL : Platform} `{CO : !Collaborators} `{BE : Backend}
        `{DW : !DebugWriter}.

(** X16: no entry point serves a null handle.  In a debug build each one
    fails its check; in a release build update, compile, the debug-info
    query and the type notification dereference the null pointer, while
    unload does nothing. *)
Theorem null_handle_is_never_served
    (runtime : Runtime) (w : JitWorld) (method : ArtMethod) (self : Thread)
    (osr : bool) (types : list MirrorClass) (registered : list DebugInfoEntry) :
  (kIsDebugBuild = true ->
   (exists what, jit_update_options runtime None = CheckFailure what) /\
   (exists what, jit_compile_method None w method self osr = CheckFailure what) /\
   (exists what, jit_generate_debug_info None = CheckFailure what) /\
   (exists what,
      jit_types_loaded self None types registered = CheckFailure what) /\
   (exists what, jit_unload None = CheckFailure what)) /\
  (kIsDebugBuild = false ->
   jit_update_options runtime None = NullDereference /\
   jit_compile_method None w method self osr = NullDereference /\
   jit_generate_debug_info None = NullDereference /\
   jit_types_loaded self None types registered = NullDereference /\
   jit_unload None = Returns None).
Proof.
  unfold jit_update_options, jit_compile_method, jit_generate_debug_info,
         jit_types_loaded, jit_unload, with_handle.
  split; intros ->; repeat split; eexists; reflexivity.
Qed.

(** X17: the entry a notification registers for an object that was created
    and updated carries the feature set the object holds, never a null one,
    the instruction set of the options, and no code address. *)
Theorem type_entries_carry_features
    (runtime : Runtime) (updates : list Runtime) (jc : JitCompiler)
    (current : Thread) (types : list MirrorClass)
    (registered : list DebugInfoEntry) :
  session runtime updates = Returns jc ->
  generate_debug_info_ (compiler_options_ jc) = true ->
  exists entry f,
    jit_types_loaded current (Some jc) types registered =
      Returns (registered ++ [entry]) /\
    entry_features entry = Some f /\
    instruction_set_features_ (compiler_options_ jc) = Some f /\
    entry_elf_file entry =
      WriteDebugElfFileForClasses kRuntimeISA (Some f) types /\
    entry_isa entry = instruction_set_ (compiler_options_ jc) /\
    entry_code_ptr entry = None.
Proof.
  intros Hs Hg. apply session_well_configured in Hs as (_ & [f Hf] & _ & _).
  unfold jit_types_loaded, with_handle, GetGenerateDebugInfo,
         GetInstructionSetFeatures, GetInstructionSet.
  rewrite Hg. eexists; exists f. split; [reflexivity|]. simpl.
  rewrite Hf. repeat split.
Qed.

End NullHandle.

(** * More of the sample host at work *)

(** The structured parser changes a field of the options only if a
    recognized token does. *)
Lemma structured_parse_keeps_field `{Platform} {A : Type}
    (field : CompilerOptions -> A) (classify : string -> TokenClass) :
  (forall t update o,
     classify t = Recognized update -> field (update o) = field o) ->
  forall tokens o ignore_unrecognized o',
    structured_parse classify o tokens ignore_unrecognized = Ok o' ->
    field o' = field o.
Proof.
  intros Hkeep tokens. induction tokens as [|t tokens IH];
    intros o ign o'; simpl.
  - intros E. now injection E as <-.
  - destruct (classify t) as [|e|update] eqn:Ec.
    + destruct ign; [apply IH|clash].
    + clash.
    + intros E. rewrite (IH _ _ _ E). exact (Hkeep t update o Ec).
Qed.

Module MoreOnSampleHost.
Import SampleHost SampleRuns MoreSampleRuns.

#[local] Existing Instance arm64.
#[local] Existing Instance arm64_collaborators.
#[local] Existing Instance sample_backend.
#[local] Existing Instance sample_writer.

Lemma sample_classify_keeps_inline_budget (t : string)
    (update : CompilerOptions -> CompilerOptions) (o : CompilerOptions) :
  classify kArm64 true t = Recognized update ->
  inline_max_code_units_ (update o) = inline_max_code_units_ o.
Proof.
  unfold classify.
  repeat (match goal with
          | |- context [if ?c then _ else _] => destruct c
          end);
    intros E; try discriminate E; injection E as <-; reflexivity.
Qed.

(** *** X1 *)

Lemma variant_token_replaces_earlier_features_witness :
  scanned_features kArm64
    ([features_token "crc"] ++ variant_token "kryo" :: [features_token "lse"])
    None =
  scanned_features kArm64
    (variant_token "kryo" :: [features_token "lse"]) None /\
  scanned_features kArm64
    (variant_token "kryo" :: [features_token "lse"]) None =
  Returns (Some {| baseline := "kryo"; overlay := ["lse"] |}).
Proof.
  split; [|reflexivity].
  apply (@variant_token_replaces_earlier_features arm64 kArm64
           [features_token "crc"] [features_token "lse"] (variant_token "kryo")
           (Some {| baseline := "default"; overlay := ["crc"] |}) []);
    reflexivity.
Defined.

(** *** X2 *)

Lemma features_tokens_accumulate_witness :
  scan_options kArm64 (map features_token ["crc"; "lse"; "-a53"]) (None, []) =
  Returns (Some {| baseline := "default"; overlay := ["crc"; "lse"; "-a53"] |},
           []).
Proof.
  apply (@features_tokens_accumulate arm64 kArm64 "crc" ["lse"; "-a53"] None
           {| baseline := "default"; overlay := [] |}
           {| baseline := "default"; overlay := ["crc"; "lse"; "-a53"] |} []);
    evaluate.
Defined.

(** *** X3 *)


(** *** X4 *)

Lemma token_value_stops_at_nul_witness :
  outcome_map fst
    (scan_option kArm64 (None, [])
       (variant_token ("kryo" ++ String Ascii.zero "-and-more"))) =
  outcome_map fst (scan_option kArm64 (None, []) (variant_token "kryo")) /\
  outcome_map fst
    (scan_option kArm64 (None, [])
       (features_token ("kryo" ++ String Ascii.zero "-and-more"))) =
  outcome_map fst (scan_option kArm64 (None, []) (features_token "kryo")).
Proof.
  apply (@token_value_stops_at_nul arm64 kArm64 "kryo" "-and-more" (None, [])).
  reflexivity.
Defined.

(** *** X5 *)

Lemma resolution_forgets_previous_features_witness :
  instruction_set_features_ (compiler_options_ with_kryo) =
    Some {| baseline := "kryo"; overlay := [] |} /\
  resolved_features (run runtime_c2 fresh_object) =
  resolved_features (run runtime_c2 with_kryo) /\
  snd (run runtime_c2 fresh_object) = snd (run runtime_c2 with_kryo) /\
  compiling_with_core_image_
    (compiler_options_ (fst (run runtime_c2 fresh_object))) =
  compiling_with_core_image_
    (compiler_options_ (fst (run runtime_c2 with_kryo))).
Proof.
  split; [reflexivity|].
  apply (@resolution_forgets_previous_features arm64 arm64_collaborators
           runtime_c2 fresh_object with_kryo
           (parsed runtime_c2 fresh_object) (parsed runtime_c2 with_kryo)
           (run runtime_c2 fresh_object) (run runtime_c2 with_kryo));
    reflexivity.
Defined.

(** *** X6: a debug build of the sample host whose options hold the 32-bit
    ARM instruction set instead of Thumb2 *)

Example assertion_fails_on_arm_without_thumb2 :
  @ParseCompilerOptions (platform kArm true) (collaborators kArm true)
    (runtime_with [] false)
    {| compiler_options_ :=
         @mkCompilerOptions (platform kArm true)
           kArm None false false 0%Z false false;
       compiler_driver_ := None;
       jit_logger_ := None |}
  = CheckFailure "Check failed: instruction_set".
Proof. reflexivity. Qed.

(** *** X7 *)

Lemma null_dereference_needs_rejected_default_witness :
  exists o1,
    @baseline_parse no_default no_default_collaborators
      (runtime_with [features_token "crc"] false)
      (@fresh_object no_default no_default_collaborators) = Ok o1 /\
    (exists e, @FromVariant no_default (instruction_set_ o1) "default" = Err e) /\
    exists t, In t [features_token "crc"] /\
              starts_with t variant_prefix = false /\
              starts_with t features_prefix = true.
Proof.
  apply (@null_dereference_needs_rejected_default
           no_default no_default_collaborators
           (runtime_with [features_token "crc"] false)
           (@fresh_object no_default no_default_collaborators)).
  reflexivity.
Defined.

(** *** X8 *)

Lemma inline_budget_reset_before_parse_witness :
  inline_max_code_units_ (compiler_options_ fresh_object) = 100%Z /\
  inline_max_code_units_
    (compiler_options_ (fst (run (runtime_with ["--debuggable"] false)
                                 fresh_object))) = (-1)%Z.
Proof.
  split; [reflexivity|].
  destruct (@inline_budget_reset_before_parse arm64 arm64_collaborators
              (runtime_with ["--debuggable"] false) fresh_object
              (fst (run (runtime_with ["--debuggable"] false) fresh_object))
              (snd (run (runtime_with ["--debuggable"] false) fresh_object))
              (parsed (runtime_with ["--debuggable"] false) fresh_object))
    as [_ Hdefault].
  - reflexivity.
  - reflexivity.
  - apply Hdefault. intros o o'.
    apply (@structured_parse_keeps_field arm64 Z inline_max_code_units_
             (classify kArm64 true) sample_classify_keeps_inline_budget).
Defined.

(** *** X9 *)

Lemma last_variant_token_decides_witness :
  exists jc',
    ParseCompilerOptions runtime_x9 fresh_object = Returns (jc', []) /\
    resolved_features (jc', []) = Some {| baseline := "kryo"; overlay := [] |}.
Proof.
  apply (@last_variant_token_decides arm64 arm64_collaborators
           runtime_x9 fresh_object (parsed runtime_x9 fresh_object)
           [features_token "crc"; "-Xunknown"] ["--debuggable"] "kryo"
           (Some {| baseline := "default"; overlay := ["crc"] |}) []
           {| baseline := "kryo"; overlay := [] |});
    evaluate.
Defined.

(** *** X10 *)

Lemma debug_info_query_reflects_parse_witness :
  jit_generate_debug_info (Some (fst (run runtime_debug_info fresh_object))) =
    Returns true /\
  jit_logger_ (fst (run runtime_debug_info fresh_object)) =
    Some {| log_is_open := true |}.
Proof.
  destruct (@debug_info_query_reflects_parse arm64 arm64_collaborators
              runtime_debug_info fresh_object
              (fst (run runtime_debug_info fresh_object))
              (snd (run runtime_debug_info fresh_object))
              (parsed runtime_debug_info fresh_object))
    as (Hquery & Hopen & _).
  - reflexivity.
  - reflexivity.
  - split; [exact Hquery|]. apply Hopen. reflexivity.
Defined.

(** *** X11 *)


(** *** X12 *)

Lemma unload_after_session_witness :
  generate_debug_info_ (compiler_options_ session_object) = true /\
  exists released,
    jit_unload (Some session_object) = Returns (Some released) /\
    compiler_options_ released = compiler_options_ session_object /\
    compiler_driver_ released = compiler_driver_ session_object /\
    (generate_debug_info_ (compiler_options_ session_object) = true ->
     jit_logger_ released = Some {| log_is_open := false |}) /\
    (generate_debug_info_ (compiler_options_ session_object) = false ->
     released = session_object).
Proof.
  split; [vm_compute; reflexivity|].
  apply (@unload_after_session arm64 arm64_collaborators
           runtime_debug_info updates session_object).
  vm_compute. reflexivity.
Defined.

(** *** X13: a proxy method in the debug build of the sample host, and a
    pending exception in a release build of it *)

Example proxy_method_is_refused :
  CompileMethod created world worker method_proxy false
  = CheckFailure "!method->IsProxyMethod()".
Proof. reflexivity. Qed.

Example pending_exception_is_fatal_in_release :
  @CompileMethod (platform kArm64 false) sample_backend
    {| compiler_options_ :=
         @mkCompilerOptions (platform kArm64 false)
           kArm64 None false false 0%Z false false;
       compiler_driver_ :=
         Some {| compiler_kind_ := kOptimizing; thread_count_ := 1;
                 swap_fd_ := (-1)%Z; dedupe_enabled_ := false |};
       jit_logger_ := None |}
    world {| thread_id := 7; IsExceptionPending := true |} method_foo false
  = FatalAbort "No pending exception expected".
Proof. reflexivity. Qed.

(** *** X14 *)

Lemma compile_all_serves_in_order_witness :
  backend_answers (backend_state world) (jit_code_cache world)
                  (jit_logger_ created) requests = [true; false] /\
  exists w',
    compile_all created world requests =
      Returns (backend_answers (backend_state world) (jit_code_cache world)
                               (jit_logger_ created) requests, w') /\
    length (filter is_compile (history w')) =
      length (filter is_compile (history world)) + length requests /\
    length (filter is_trim (history w')) =
      length (filter is_trim (history world)) + length requests /\
    length (filter is_report (history w')) =
      length (filter is_report (history world)) + length requests /\
    length (cumulative_timings w') =
      length (cumulative_timings world) + length requests /\
    thread_cpu_time world <= thread_cpu_time w' /\
    jit_code_cache w' = jit_code_cache world.
Proof.
  split; [reflexivity|].
  apply (@compile_all_serves_in_order arm64 sample_backend created
           {| compiler_kind_ := kOptimizing; thread_count_ := 1;
              swap_fd_ := (-1)%Z; dedupe_enabled_ := false |}
           requests world).
  - reflexivity.
  - repeat constructor.
  - right. repeat constructor.
Defined.

(** *** X15: two notifications, the second with no types *)

Example two_notifications :
  notify_all worker (Some with_debug_info) [[1; 2; 3]; []] [] =
    Returns [type_entry worker with_debug_info [1; 2; 3];
             type_entry worker with_debug_info []] /\
  notify_all worker (Some without_debug_info) [[1; 2; 3]; []] [] = Returns [].
Proof. split; reflexivity. Qed.

(** *** X17 *)

Lemma type_entries_carry_features_witness :
  exists entry f,
    jit_types_loaded worker (Some session_object) [4; 5] [] =
      Returns ([] ++ [entry]) /\
    entry_features entry = Some f /\
    instruction_set_features_ (compiler_options_ session_object) = Some f /\
    entry_elf_file entry =
      WriteDebugElfFileForClasses kRuntimeISA (Some f) [4; 5] /\
    entry_isa entry = instruction_set_ (compiler_options_ session_object) /\
    entry_code_ptr entry = None.
Proof.
  apply (@type_entries_carry_features arm64 arm64_collaborators sample_writer
           runtime_debug_info updates session_object worker [4; 5] []);
    vm_compute; reflexivity.
Defined.

End MoreOnSampleHost.
